(** * zktraffic/cli/zk.py: the printers of the ZooKeeper traffic monitor

    A shallow embedding of the request/reply correlation code of
    [zktraffic/cli/zk.py]: the pending-request table ([Requests]), the four
    printers ([DefaultPrinter], [UnpairedPrinter], [CountPrinter],
    [LatencyPrinter]) and the part of [main] that selects and configures
    them.

    Conventions.
    - A Python [dict]/[defaultdict] is a [gmap]; its iteration order
      ([items()]) is [map_to_list], which, like the order of a Python 2
      dictionary, is fixed but carries no meaning.
    - A [deque] used as a FIFO is a list: [append] adds at the end,
      [popleft] takes the head.
    - [sys.stdout] is an append-only log of what was written.  For the trace
      printers one entry is one call [write( *msgs )], recorded with its
      arguments; the rendering of a message (arrow prefix, timestamp, colour)
      is not part of the model, and the sink is assumed to accept every
      write (the [IOError] exits of the loops are not reachable).
    - Timestamps are Python floats; they are modelled as rationals [Q]
      (exact for the values used below).  Latencies are differences of
      timestamps, so [sum(latencies) / len(latencies)] is a true division.
    - A thread is a program counter next to the object's fields; one step
      of a thread executes one block of source lines. *)

From Stdlib Require Import ZArith QArith Qround List String Lia Permutation Sorted.
From stdpp Require Import base option list gmap strings fin_maps.

Open Scope string_scope.
Open Scope Z_scope.
Open Scope list_scope.

(** ** Messages

    The objects handed to the handlers by the sniffer.  Only the attributes
    read by [zk.py] are kept: [client], [xid], [opcode], [timestamp],
    [path] and [name]. *)

Record msg := Msg {
  client : string;
  xid : Z;
  opcode : Z;
  timestamp : Q;
  path : string;
  name : string
}.

(** ** Names imported from the rest of the package

    [OpCodes.CLOSE] (zktraffic.base.zookeeper) and the method
    [parent_path] of a message (zktraffic.base) are defined outside
    [zk.py], which only compares an opcode with the first and calls the
    second, so both are taken as given. *)

Class Imports := {
  CLOSE : Z;
  parent_path : msg → Z → string
}.

(** The three handler slots the [Sniffer] is constructed with
    ([p.request_handler], [p.reply_handler], [p.event_handler]), and what
    can happen next in a run: the sniffer calls a handler, the printer
    thread executes its next block, or the main thread executes the next
    block of [p.cancel()] (entered when [KeyboardInterrupt] reaches the
    loop [while p.isAlive()]). *)

Inductive callback :=
  | OnRequest (req : msg)
  | OnReply (rep : msg)
  | OnEvent (evt : msg).

Inductive action :=
  | Sniffer (c : callback)
  | Printer
  | Main.

(** The handler calls of a schedule, in order. *)
Definition callbacks (tr : list action) : list callback :=
  omap (λ a, match a with Sniffer c => Some c | _ => None end) tr.

(** ** class Requests *)

Module Requests.

(** [self.requests_by_xid = defaultdict(list)] *)
Abbreviation t := (gmap Z (list msg)).

Definition init : t := ∅.

(** [self.requests_by_xid[req.xid].append(req)]: indexing a
    [defaultdict(list)] at a missing key first stores [[]] there. *)
Definition add (req : msg) (self : t) : t :=
  <[xid req := default [] (self !! xid req) ++ [req]]> self.

(** [return self.requests_by_xid.pop(xid) if xid in self.requests_by_xid else []] *)
Definition pop (x : Z) (self : t) : list msg * t :=
  match self !! x with
  | Some reqs => (reqs, delete x self)
  | None => ([], self)
  end.

End Requests.

(** [defaultdict(Requests)], as both pairing printers keep it.  Indexing at
    a client that is absent stores a fresh [Requests()] for it first, so a
    lookup returns the table together with the object found or created. *)

Abbreviation requests_by_client := (gmap string Requests.t).

Definition getitem (c : string) (by_client : requests_by_client)
  : Requests.t * requests_by_client :=
  match by_client !! c with
  | Some r => (r, by_client)
  | None => (Requests.init, <[c := Requests.init]> by_client)
  end.

(** [by_client[req.client].add(req)] *)
Definition add_request (req : msg) (by_client : requests_by_client)
  : requests_by_client :=
  let '(r, by_client) := getitem (client req) by_client in
  <[client req := Requests.add req r]> by_client.

(** [by_client[rep.client].pop(rep.xid)] *)
Definition pop_requests (rep : msg) (by_client : requests_by_client)
  : list msg * requests_by_client :=
  let '(r, by_client) := getitem (client rep) by_client in
  let '(reqs, r) := Requests.pop (xid rep) r in
  (reqs, <[client rep := r]> by_client).

(** ** [sorted(items, key=..., reverse=True)]

    Python's sort is stable, also in reverse: an item moves in front of
    another only when its key is strictly greater.  [ltb] is the strict
    order of the keys. *)

Section Sorted.
Context {A K : Type} (ltb : K → K → bool) (key : A → K).

Fixpoint insert_reverse (x : A) (l : list A) : list A :=
  match l with
  | [] => [x]
  | y :: l' => if ltb (key x) (key y) then y :: insert_reverse x l' else x :: l
  end.

Definition sorted_reverse (l : list A) : list A := foldr insert_reverse [] l.
End Sorted.

(** ** def key_of

    [None] is [raise ValueError("Unknown group: ...")]. *)

Definition key_of `{Imports} (m : msg) (group_by : string) (depth : Z)
  : option string :=
  if decide (group_by = "path") then
    Some (if decide (depth = 0) then path m else parent_path m depth)
  else if decide (group_by = "type") then Some (name m)
  else if decide (group_by = "client") then Some (client m)
  else None.

(** ** class DefaultPrinter(BasePrinter) *)

Module DefaultPrinter.

Record t := Build {
  colors : bool;
  loopback : bool;
  _requests_by_client : requests_by_client;
  _replies : list msg;
  stdout : list (list msg)
}.

(** [DefaultPrinter(colors, loopback)] *)
Definition init (colors loopback : bool) : t := Build colors loopback ∅ [] [].

(** [self.write( *msgs )]: [colored_write] and [simple_write] both write
    the messages in order and flush. *)
Definition write (msgs : list msg) (self : t) : t :=
  Build (colors self) (loopback self) (_requests_by_client self)
        (_replies self) (stdout self ++ [msgs]).

Definition request_handler `{Imports} (req : msg) (self : t) : t :=
  if decide (opcode req = CLOSE) then write [req] self
  else Build (colors self) (loopback self)
             (add_request req (_requests_by_client self))
             (_replies self) (stdout self).

Definition reply_handler (rep : msg) (self : t) : t :=
  Build (colors self) (loopback self) (_requests_by_client self)
        (_replies self ++ [rep]) (stdout self).

Definition event_handler (evt : msg) (self : t) : t := write [evt] self.

(** One iteration of [while True] in [run]. *)
Definition run_iter (self : t) : t :=
  match _replies self with
  | [] => self                                  (* IndexError: sleep, continue *)
  | rep :: replies =>
      let '(reqs, by_client) := pop_requests rep (_requests_by_client self) in
      let self := Build (colors self) (loopback self) by_client replies (stdout self) in
      match reqs with
      | [] => self                              (* if not reqs: continue *)
      | _ =>
          let msgs := if loopback self then firstn 1 reqs ++ [rep] else reqs ++ [rep] in
          write msgs self
      end
  end.

(** [BasePrinter.cancel]: [pass]. *)
Definition cancel (self : t) : t := self.

Definition step `{Imports} (a : action) (self : t) : t :=
  match a with
  | Sniffer (OnRequest req) => request_handler req self
  | Sniffer (OnReply rep) => reply_handler rep self
  | Sniffer (OnEvent evt) => event_handler evt self
  | Printer => run_iter self
  | Main => cancel self
  end.

Definition exec `{Imports} (tr : list action) (self : t) : t :=
  foldl (λ s a, step a s) self tr.

End DefaultPrinter.

(** ** class UnpairedPrinter(BasePrinter) *)

Module UnpairedPrinter.

Record t := Build {
  colors : bool;
  loopback : bool;
  _messages : list msg;
  stdout : list (list msg)
}.

Definition init (colors loopback : bool) : t := Build colors loopback [] [].

Definition enqueue (m : msg) (self : t) : t :=
  Build (colors self) (loopback self) (_messages self ++ [m]) (stdout self).

Definition request_handler := enqueue.
Definition reply_handler := enqueue.
Definition event_handler := enqueue.

(** One iteration of [while True] in [run]. *)
Definition run_iter (self : t) : t :=
  match _messages self with
  | [] => self
  | m :: messages =>
      Build (colors self) (loopback self) messages (stdout self ++ [[m]])
  end.

(** [BasePrinter.cancel]: [pass]. *)
Definition cancel (self : t) : t := self.

Definition step (a : action) (self : t) : t :=
  match a with
  | Sniffer (OnRequest req) => request_handler req self
  | Sniffer (OnReply rep) => reply_handler rep self
  | Sniffer (OnEvent evt) => event_handler evt self
  | Printer => run_iter self
  | Main => cancel self
  end.

Definition exec (tr : list action) (self : t) : t :=
  foldl (λ s a, step a s) self tr.

End UnpairedPrinter.

(** ** class CountPrinter(BasePrinter) *)

Module CountPrinter.

(** The thread of [run]: polling [seen], or returned. *)
Inductive pc := Polling | Returned.

Record t := Build {
  loopback : bool;
  count : Z;
  group_by : string;
  aggregation_depth : Z;
  seen : Z;
  requests : gmap string Z;        (* defaultdict(int) *)
  stdout : list (string * Z);      (* one entry per line "%s %d\n" *)
  thread : pc
}.

(** [CountPrinter(count, group_by, loopback, aggregation_depth)] *)
Definition init (count : Z) (group_by : string) (loopback : bool)
    (aggregation_depth : Z) : t :=
  Build loopback count group_by aggregation_depth 0 ∅ [] Polling.

(** [_add]; [None] is the [ValueError] of [key_of], raised before
    anything is updated. *)
Definition _add `{Imports} (m : msg) (self : t) : option t :=
  if decide (count self ≤ seen self) then Some self
  else
    key ← key_of m (group_by self) (aggregation_depth self);
    Some (Build (loopback self) (count self) (group_by self)
                (aggregation_depth self) (seen self + 1)
                (<[key := default 0 (requests self !! key) + 1]> (requests self))
                (stdout self) (thread self)).

Definition request_handler `{Imports} := _add.
Definition reply_handler (rep : msg) (self : t) : option t := Some self.
Definition event_handler `{Imports} := _add.

(** The lines of the summary, as [run] computes them. *)
Definition results (self : t) : list (string * Z) :=
  sorted_reverse Z.ltb snd (map_to_list (requests self)).

(** One block of [run]: the test of the [while] with its [sleep], or,
    once the test fails, the summary. *)
Definition run_step (self : t) : t :=
  match thread self with
  | Returned => self
  | Polling =>
      if decide (seen self < count self) then self
      else Build (loopback self) (count self) (group_by self)
                 (aggregation_depth self) (seen self) (requests self)
                 (stdout self ++ results self) Returned
  end.

(** [BasePrinter.cancel]: [pass]. *)
Definition cancel (self : t) : t := self.

Definition step `{Imports} (a : action) (self : t) : option t :=
  match a with
  | Sniffer (OnRequest req) => request_handler req self
  | Sniffer (OnReply rep) => reply_handler rep self
  | Sniffer (OnEvent evt) => event_handler evt self
  | Printer => Some (run_step self)
  | Main => Some (cancel self)
  end.

Fixpoint exec `{Imports} (tr : list action) (self : t) : option t :=
  match tr with
  | [] => Some self
  | a :: tr => self ← step a self; exec tr self
  end.

End CountPrinter.

(** ** zktraffic.stats.util.percentile *)

(** Modelled from the spec: [percentile] is imported from
    zktraffic.stats.util, which is not part of the sources at hand.  It is
    the nearest-rank percentile of section 4.1: for samples sorted
    ascending and a fraction [p], the value at rank [ceil(p * n)], counted
    from 1 and clamped to [[1, n]]; no interpolation.  An empty sequence
    violates the precondition ([None]). *)
Definition percentile (N : list Q) (p : Q) : option Q :=
  let n := Z.of_nat (length N) in
  let rank := Z.max 1 (Z.min n (Qceiling (p * inject_Z n))) in
  N !! Z.to_nat (rank - 1).

(** ** class LatencyPrinter(BasePrinter) *)

Module LatencyPrinter.

(** What is written to [sys.stdout]. *)
Inductive output :=
  | Collecting (seen count : Z)            (* "\rCollecting (%d/%d)" *)
  | ClearLine                               (* "\r" *)
  | Table (headers : list string) (data : list (string * Q * Q * Q)).
                                            (* tabulate(data, headers) *)

Record t := Build {
  loopback : bool;
  _count : Z;
  _group_by : string;
  _aggregation_depth : Z;
  _sort_by : string;
  _seen : Z;
  _latencies_by_group : gmap string (list Q);
  _requests_by_client : requests_by_client;
  _replies : list msg;
  _report_done : bool;
  stdout : list output
}.

(** [LatencyPrinter(count, group_by, loopback, aggregation_depth, sort_by)] *)
Definition init (count : Z) (group_by : string) (loopback : bool)
    (aggregation_depth : Z) (sort_by : string) : t :=
  Build loopback count group_by aggregation_depth sort_by 0 ∅ ∅ [] false [].

Definition set_seen (n : Z) (self : t) : t :=
  Build (loopback self) (_count self) (_group_by self) (_aggregation_depth self)
        (_sort_by self) n (_latencies_by_group self) (_requests_by_client self)
        (_replies self) (_report_done self) (stdout self).

Definition set_report_done (b : bool) (self : t) : t :=
  Build (loopback self) (_count self) (_group_by self) (_aggregation_depth self)
        (_sort_by self) (_seen self) (_latencies_by_group self)
        (_requests_by_client self) (_replies self) b (stdout self).

Definition set_requests (by_client : requests_by_client) (self : t) : t :=
  Build (loopback self) (_count self) (_group_by self) (_aggregation_depth self)
        (_sort_by self) (_seen self) (_latencies_by_group self) by_client
        (_replies self) (_report_done self) (stdout self).

Definition set_replies (replies : list msg) (self : t) : t :=
  Build (loopback self) (_count self) (_group_by self) (_aggregation_depth self)
        (_sort_by self) (_seen self) (_latencies_by_group self)
        (_requests_by_client self) replies (_report_done self) (stdout self).

Definition set_latencies (lat : gmap string (list Q)) (self : t) : t :=
  Build (loopback self) (_count self) (_group_by self) (_aggregation_depth self)
        (_sort_by self) (_seen self) lat (_requests_by_client self)
        (_replies self) (_report_done self) (stdout self).

Definition write (o : output) (self : t) : t :=
  Build (loopback self) (_count self) (_group_by self) (_aggregation_depth self)
        (_sort_by self) (_seen self) (_latencies_by_group self)
        (_requests_by_client self) (_replies self) (_report_done self)
        (stdout self ++ [o]).

(** *** Handlers *)

Definition request_handler `{Imports} (req : msg) (self : t) : t :=
  if decide (opcode req ≠ CLOSE)
  then set_requests (add_request req (_requests_by_client self)) self
  else self.

Definition reply_handler (rep : msg) (self : t) : t :=
  set_replies (_replies self ++ [rep]) self.

Definition event_handler (evt : msg) (self : t) : t := self.

(** *** wait_for_requests *)

(** How a block of code ends: control goes on ([Next]), the enclosing
    function returns ([Return]), or an exception leaves it ([Raise]). *)
Inductive outcome := Next | Return | Raise.

(** One evaluation of the [while] test of [wait_for_requests], with the
    body when the test holds.  [Return] leaves the loop. *)
Definition wait_iter `{Imports} (self : t) : outcome * t :=
  if decide (_seen self < _count self) then
    match _replies self with
    | [] => (Next, self)                   (* IndexError: sleep, continue *)
    | rep :: replies =>
        let self := set_replies replies self in
        let '(reqs, by_client) := pop_requests rep (_requests_by_client self) in
        let self := set_requests by_client self in
        match reqs with
        | [] => (Next, self)               (* if not reqs: continue *)
        | req :: _ =>
            match key_of req (_group_by self) (_aggregation_depth self) with
            | None => (Raise, self)
            | Some key =>
                let latency := (timestamp rep - timestamp req)%Q in
                let lat := _latencies_by_group self in
                let self :=
                  set_latencies (<[key := default [] (lat !! key) ++ [latency]]> lat) self in
                let self := set_seen (_seen self + 1) self in
                (Next, write (Collecting (_seen self) (_count self)) self)
            end
        end
    end
  else (Return, self).

(** *** report *)

Record result := Result { avg : Q; p95 : Q; p99 : Q }.

(** [sum(latencies)] *)
Definition sum (latencies : list Q) : Q := foldl Qplus 0%Q latencies.

Definition Qltb (x y : Q) : bool := negb (Qle_bool y x).

(** [sorted(latencies)]: ascending and stable. *)
Fixpoint insert_sorted (x : Q) (l : list Q) : list Q :=
  match l with
  | [] => [x]
  | y :: l' => if Qle_bool x y then x :: l else y :: insert_sorted x l'
  end.

Definition sorted (l : list Q) : list Q := foldr insert_sorted [] l.

(** The body of the first [for] of [report], for one group.  [None]:
    [ZeroDivisionError], or [percentile] called outside its
    precondition. *)
Definition result_of (latencies : list Q) : option result :=
  match latencies with
  | [] => None
  | _ =>
      let a := (sum latencies / inject_Z (Z.of_nat (length latencies)))%Q in
      let latencies := sorted latencies in
      p95 ← percentile latencies 0.95%Q;
      p99 ← percentile latencies 0.99%Q;
      Some (Result a p95 p99)
  end.

(** [result[self._sort_by]]; [None] is [KeyError]. *)
Definition getitem_result (r : result) (k : string) : option Q :=
  if decide (k = "avg") then Some (avg r)
  else if decide (k = "p95") then Some (p95 r)
  else if decide (k = "p99") then Some (p99 r)
  else None.

(** Lines 316 to 330: the rows of the table. *)
Definition data (self : t) : option (list (string * Q * Q * Q)) :=
  results ← mapM (λ '(key, latencies), r ← result_of latencies; Some (key, r))
                 (map_to_list (_latencies_by_group self));
  keyed ← mapM (λ '(key, r), m ← getitem_result r (_sort_by self); Some (m, (key, r)))
               results;
  Some (map (λ '(_, (key, r)), (key, avg r, p95 r, p99 r))
            (sorted_reverse Qltb fst keyed)).

Definition headers (self : t) : list string :=
  [_group_by self; "avg"; "p95"; "p99"].

(** Lines 314 to 333. *)
Definition report_emit (self : t) : outcome * t :=
  let self := write ClearLine self in
  match data self with
  | None => (Raise, self)
  | Some d => (Return, write (Table (headers self) d) self)
  end.

(** [report], called and run to its end without interference. *)
Definition report (self : t) : outcome * t :=
  if _report_done self then (Return, self)
  else
    let self := if decide (_seen self < _count self)
                then set_seen (_count self) self else self in
    let self := set_report_done true self in
    report_emit self.

(** [cancel]: [self.report()] *)
Definition cancel (self : t) : outcome * t := report self.

(** *** The two threads that call [report]

    [report] is called by the printer thread at the end of [run] and by
    the main thread through [cancel].  The interpreter may switch
    threads between any two statements, so [report] is also given block
    by block; a block is named by its first line in zk.py. *)

Inductive label :=
  | L307        (* if self._report_done: return *)
  | L309        (* if self._seen < self._count: self._seen = self._count *)
  | L311        (* self._report_done = True *)
  | L314.       (* sys.stdout.write("\r") ... sys.stdout.flush() *)

(** A thread is before its call of [report] (the printer thread in
    [wait_for_requests], the main thread in [while p.isAlive()]), at a
    block of [report], past it, or dead from an exception. *)
Inductive pc := Before | At (l : label) | After | Dead.

Definition report_block (l : label) (self : t) : pc * t :=
  match l with
  | L307 => if _report_done self then (After, self) else (At L309, self)
  | L309 => (At L311, if decide (_seen self < _count self)
                      then set_seen (_count self) self else self)
  | L311 => (At L314, set_report_done true self)
  | L314 => match report_emit self with
            | (Return, self) => (After, self)
            | (_, self) => (Dead, self)
            end
  end.

Record threads := Threads { self : t; printer : pc; main : pc }.

(** [p.start()] has been called and [main] has entered its loop. *)
Definition start (self : t) : threads := Threads self Before Before.

Definition handle `{Imports} (c : callback) (self : t) : t :=
  match c with
  | OnRequest req => request_handler req self
  | OnReply rep => reply_handler rep self
  | OnEvent evt => event_handler evt self
  end.

(** One block of the printer thread: [run] is [wait_for_requests]
    followed by [report]. *)
Definition printer_step `{Imports} (T : threads) : threads :=
  match printer T with
  | Before =>
      match wait_iter (self T) with
      | (Next, s) => Threads s Before (main T)
      | (Return, s) => Threads s (At L307) (main T)
      | (Raise, s) => Threads s Dead (main T)
      end
  | At l => let '(p, s) := report_block l (self T) in Threads s p (main T)
  | After | Dead => T
  end.

(** One block of the main thread: [KeyboardInterrupt] takes it out of
    its loop into [p.cancel()], that is, into [report]. *)
Definition main_step (T : threads) : threads :=
  match main T with
  | Before => Threads (self T) (printer T) (At L307)
  | At l => let '(p, s) := report_block l (self T) in Threads s (printer T) p
  | After | Dead => T
  end.

Definition step `{Imports} (a : action) (T : threads) : threads :=
  match a with
  | Sniffer c => Threads (handle c (self T)) (printer T) (main T)
  | Printer => printer_step T
  | Main => main_step T
  end.

Definition exec `{Imports} (tr : list action) (T : threads) : threads :=
  foldl (λ T a, step a T) T tr.

(** How many times the summary table was written. *)
Definition is_table (o : output) : bool :=
  match o with Table _ _ => true | _ => false end.

Definition tables (out : list output) : nat :=
  length (List.filter is_table out).

End LatencyPrinter.

(** ** def main

    The part of [main] that decides which printer is started and with
    which arguments.  The sniffer configuration (ports, host filters) does
    not reach the printers and is left out. *)

Record options := Options {
  version : bool;
  iface : string;
  excluded_hosts : list string;
  included_hosts : list string;
  count_requests : Z;
  measure_latency : Z;
  group_by : string;
  sort_by : string;
  aggregation_depth : Z;
  unpaired : bool;
  colors : bool
}.

Inductive printer :=
  | ACountPrinter (p : CountPrinter.t)
  | ALatencyPrinter (p : LatencyPrinter.t)
  | AnUnpairedPrinter (p : UnpairedPrinter.t)
  | ADefaultPrinter (p : DefaultPrinter.t).

(** [inl n] is [sys.exit(n)]. *)
Definition validate_group_by (group_by : string) : Z + unit :=
  if decide (group_by ∈ ["path"; "type"; "client"]) then inr () else inl 1.

Definition validate_aggregation_depth (depth : Z) : Z + unit :=
  if decide (depth < 0) then inl 1 else inr ().

Definition validate_sort_by (sort_by : string) : Z + unit :=
  if decide (sort_by ∈ ["avg"; "p95"; "p99"]) then inr () else inl 1.

Definition exit_or {A B} (r : Z + A) (k : A → Z + B) : Z + B :=
  match r with inl n => inl n | inr a => k a end.

Notation "r ;;; k" := (exit_or r (λ _, k))
  (at level 100, k at level 200, right associativity, only parsing).

(** Python truth value of a list. *)
Definition truthy {A} (l : list A) : bool := match l with [] => false | _ => true end.

(** [main], up to [p.start()]: the printer that is started, or the exit
    status. *)
Definition main (opts : options) : Z + printer :=
  if version opts then inl 0
  else if truthy (excluded_hosts opts) && truthy (included_hosts opts) then inl 1
  else
    let loopback := bool_decide (iface opts ∈ ["lo"; "lo0"]) in
    if bool_decide (count_requests opts > 0) && bool_decide (measure_latency opts > 0)
    then inl 1
    else if bool_decide (count_requests opts > 0) then
      validate_group_by (group_by opts) ;;;
      validate_aggregation_depth (aggregation_depth opts) ;;;
      inr (ACountPrinter (CountPrinter.init (count_requests opts) (group_by opts)
                            loopback (aggregation_depth opts)))
    else if bool_decide (measure_latency opts > 0) then
      validate_group_by (group_by opts) ;;;
      validate_aggregation_depth (aggregation_depth opts) ;;;
      validate_sort_by (sort_by opts) ;;;
      inr (ALatencyPrinter (LatencyPrinter.init (measure_latency opts) (group_by opts)
                              loopback (aggregation_depth opts) (sort_by opts)))
    else if unpaired opts then
      inr (AnUnpairedPrinter (UnpairedPrinter.init (colors opts) loopback))
    else
      inr (ADefaultPrinter (DefaultPrinter.init (colors opts) loopback)).

(** The [loopback] attribute of whichever printer was built. *)
Definition printer_loopback (p : printer) : bool :=
  match p with
  | ACountPrinter p => CountPrinter.loopback p
  | ALatencyPrinter p => LatencyPrinter.loopback p
  | AnUnpairedPrinter p => UnpairedPrinter.loopback p
  | ADefaultPrinter p => DefaultPrinter.loopback p
  end.

(** ** Notions used to state the properties *)

(** The correlation key of a message. *)
Definition key (m : msg) : string * Z := (client m, xid m).

(** What is buffered for client [c] and xid [x]; an absent client or an
    absent xid reads as no request. *)
Definition pending (c : string) (x : Z) (by_client : requests_by_client) : list msg :=
  default [] (by_client !! c ≫= (.!! x)).

(** The messages the sniffer hands to [request_handler] and
    [event_handler], in order. *)
Definition qualifying (cs : list callback) : list msg :=
  omap (λ c, match c with
             | OnRequest m | OnEvent m => Some m
             | OnReply _ => None
             end) cs.

(** [requests[k] += 1] for each key of a list, from the empty dictionary. *)
Definition tally (keys : list string) : gmap string Z :=
  foldl (λ m k, <[k := default 0 (m !! k) + 1]> m) ∅ keys.

Definition Zsum (l : list Z) : Z := foldr Z.add 0 l.

(** What a printer thread that keeps running writes for the replies
    [reps], taken in order from the table [by_client]. *)
Fixpoint drain (loopback : bool) (reps : list msg) (by_client : requests_by_client)
  : list (list msg) :=
  match reps with
  | [] => []
  | rep :: reps =>
      let '(reqs, by_client) := pop_requests rep by_client in
      match reqs with
      | [] => []
      | _ => [if loopback then firstn 1 reqs ++ [rep] else reqs ++ [rep]]
      end ++ drain loopback reps by_client
  end.

(** What the Paired printer has written, followed by what is still to be
    written for the queued replies and the replies [more] yet to arrive. *)
Definition outlook (more : list msg) (self : DefaultPrinter.t) : list (list msg) :=
  DefaultPrinter.stdout self
  ++ drain (DefaultPrinter.loopback self) (DefaultPrinter._replies self ++ more)
           (DefaultPrinter._requests_by_client self).

(** No close request is buffered. *)
Definition no_close `{Imports} (T : requests_by_client) : Prop :=
  ∀ c x req, req ∈ pending c x T → opcode req ≠ CLOSE.

(** In every group written, the messages before the last one (the
    requests of a request/reply group) are not close requests. *)
Definition no_close_paired `{Imports} (out : list (list msg)) : Prop :=
  ∀ msgs req, msgs ∈ out → req ∈ removelast msgs → opcode req ≠ CLOSE.

(** The grouping keys of a list of messages. *)
Definition keys_of `{Imports} (group_by : string) (depth : Z) (ms : list msg)
  : list string :=
  omap (λ m, key_of m group_by depth) ms.

(** Non-increasing tally order of the lines of a summary. *)
Definition tally_ge (a b : string * Z) : Prop := b.2 ≤ a.2.

(** What a Count printer built for [N] samples looks like once the
    sniffer has delivered the requests and events [ms]. *)
Definition count_inv `{Imports} (N : Z) (g : string) (d : Z) (ms : list msg)
    (self : CountPrinter.t) : Prop :=
  CountPrinter.count self = N
  ∧ CountPrinter.group_by self = g
  ∧ CountPrinter.aggregation_depth self = d
  ∧ CountPrinter.seen self = Z.min N (Z.of_nat (length ms))
  ∧ CountPrinter.requests self = tally (keys_of g d (take (Z.to_nat N) ms))
  ∧ match CountPrinter.thread self with
    | CountPrinter.Polling => CountPrinter.stdout self = []
    | CountPrinter.Returned =>
        N ≤ Z.of_nat (length ms)
        ∧ CountPrinter.stdout self = CountPrinter.results self
    end.

(** The samples of the example of section 8, in seconds. *)
Definition one_to_ten : list Q := [1; 2; 3; 4; 5; 6; 7; 8; 9; 10]%Q.

(** Messages and states for examples: a [getData] request and its reply,
    a watch event, and printers in the middle of a run. *)
Definition get (c : string) (x : Z) (t : Q) : msg :=
  Msg c x 4 t "/zk/a" "GetDataRequest".

Definition got (c : string) (x : Z) (t : Q) : msg :=
  Msg c x 4 t "/zk/a" "GetDataReply".

Definition fired (c : string) (t : Q) : msg :=
  Msg c (-1) 0 t "/zk/b" "NodeDataChanged".

(** Two copies of one request are buffered and its reply is queued. *)
Definition paired_with_duplicate (loopback : bool) : DefaultPrinter.t :=
  DefaultPrinter.Build false loopback
    {[ "10.0.0.1:4000" := {[ 7 := [get "10.0.0.1:4000" 7 1; get "10.0.0.1:4000" 7 1] ]} ]}
    [got "10.0.0.1:4000" 7 2] [].

(** A reply is queued for which nothing is buffered. *)
Definition paired_with_stray : DefaultPrinter.t :=
  DefaultPrinter.Build false false
    {[ "10.0.0.1:4000" := {[ 7 := [get "10.0.0.1:4000" 7 1] ]} ]}
    [got "10.0.0.1:4000" 8 2] [].

Definition latency_with_stray : LatencyPrinter.t :=
  LatencyPrinter.Build false 5 "path" 0 "avg" 1 {[ "/zk/a" := [1%Q] ]}
    {[ "10.0.0.1:4000" := {[ 7 := [get "10.0.0.1:4000" 7 1] ]} ]}
    [got "10.0.0.1:4000" 8 2] false [LatencyPrinter.Collecting 1 5].

(** One group holds the samples 1 to 10. *)
Definition latency_one_to_ten : LatencyPrinter.t :=
  LatencyPrinter.Build false 10 "path" 0 "p95" 10 {[ "/zk/a" := one_to_ten ]}
    ∅ [] false [].

Definition lo1_options : options :=
  Options false "lo1" [] [] 0 0 "path" "avg" 0 false false.

(** The message a handler is called with. *)
Definition message_of (c : callback) : msg :=
  match c with OnRequest m | OnReply m | OnEvent m => m end.

(** What the Unpaired printer has written, followed by what is still to
    be written for the queued messages and the messages [more] yet to
    arrive. *)
Definition unpaired_outlook (more : list msg) (self : UnpairedPrinter.t)
  : list (list msg) :=
  UnpairedPrinter.stdout self
  ++ ((λ m, [m]) <$> (UnpairedPrinter._messages self ++ more)).

(** The groups the Paired printer writes from within a handler: a close
    request or an event, each alone. *)
Definition immediate `{Imports} (cs : list callback) : list (list msg) :=
  omap (λ c, match c with
             | OnRequest m => if decide (opcode m = CLOSE) then Some [m] else None
             | OnReply _ => None
             | OnEvent m => Some [m]
             end) cs.



(** Whether a thread may still write the table in [report]. *)
Definition may_report (p : LatencyPrinter.pc) : nat :=
  match p with
  | LatencyPrinter.Before | LatencyPrinter.At _ => 1
  | LatencyPrinter.After | LatencyPrinter.Dead => 0
  end.

(** The column of a row of the table that [sort_by] names (the last one
    for any name other than "avg" and "p95"). *)
Definition column (sort_by : string) (row : string * Q * Q * Q) : Q :=
  let '(_, a, p95, p99) := row in
  if decide (sort_by = "avg") then a
  else if decide (sort_by = "p95") then p95
  else p99.

(** Non-increasing order of the rows in the column [sort_by]. *)
Definition column_ge (sort_by : string) (a b : string * Q * Q * Q) : Prop :=
  (column sort_by b <= column sort_by a)%Q.


(** Two copies of one request are buffered for the Latency printer and the
    reply is queued. *)
Definition latency_with_duplicate (group_by : string) : LatencyPrinter.t :=
  LatencyPrinter.Build false 5 group_by 0 "avg" 1 {[ "/zk/a" := [1%Q] ]}
    {[ "10.0.0.1:4000" := {[ 7 := [get "10.0.0.1:4000" 7 1; get "10.0.0.1:4000" 7 (3 # 2)] ]} ]}
    [got "10.0.0.1:4000" 7 3] false [LatencyPrinter.Collecting 1 5].

Definition count_options : options :=
  Options false "eth0" [] [] 100 0 "type" "avg" 2 true true.

Definition latency_options : options :=
  Options false "lo" [] ["zk1"] 0 50 "client" "p99" 0 true false.

(** Two groups hold samples; the table is to be sorted by "p95". *)
Definition latency_two_groups : LatencyPrinter.t :=
  LatencyPrinter.Build false 3 "path" 0 "p95" 3
    {[ "/zk/a" := [1; 3]%Q; "/zk/b" := [5%Q] ]} ∅ [] false [].

(** An instance of the imported names, for examples: ZooKeeper's
    [closeSession] opcode is -11; [parent_path] keeps the path. *)
Definition example_imports : Imports :=
  {| CLOSE := -11; parent_path := λ m _, path m |}.

(** * Properties *)

(** ** The pending-request table *)

Section Table.
Implicit Types (T : requests_by_client) (req rep : msg) (c : string) (x : Z).

Lemma pop_fst x (R : Requests.t) : (Requests.pop x R).1 = default [] (R !! x).
Proof. unfold Requests.pop. by destruct (R !! x). Qed.

Lemma pop_snd x (R : Requests.t) : (Requests.pop x R).2 = delete x R.
Proof.
  unfold Requests.pop. destruct (R !! x) eqn:E; [done |].
  simpl. symmetry. by apply delete_id.
Qed.

Lemma pop_init x : Requests.pop x Requests.init = ([], Requests.init).
Proof. unfold Requests.pop, Requests.init. by rewrite lookup_empty. Qed.

Lemma lookup_default_init (o : option Requests.t) x :
  default Requests.init o !! x = o ≫= (.!! x).
Proof. destruct o; simpl; [done |]. apply lookup_empty. Qed.

Lemma getitem_fst c T : (getitem c T).1 = default Requests.init (T !! c).
Proof. unfold getitem. by destruct (T !! c). Qed.

Lemma getitem_snd_lookup c T :
  (getitem c T).2 !! c = Some (getitem c T).1.
Proof.
  unfold getitem. destruct (T !! c) eqn:E; simpl; [done |].
  by rewrite lookup_insert_eq.
Qed.

Lemma getitem_snd_ne c c' T : c ≠ c' → (getitem c T).2 !! c' = T !! c'.
Proof.
  intros Hne. unfold getitem. destruct (T !! c); simpl; [done |].
  by rewrite lookup_insert_ne.
Qed.

Lemma add_request_lookup req T :
  add_request req T
  = <[client req := Requests.add req (default Requests.init (T !! client req))]> T.
Proof.
  unfold add_request, getitem. destruct (T !! client req) eqn:E; simpl; [done |].
  by rewrite insert_insert_eq.
Qed.

Lemma pop_requests_fst rep T :
  (pop_requests rep T).1 = pending (client rep) (xid rep) T.
Proof.
  unfold pop_requests, pending, getitem.
  destruct (T !! client rep) as [R|] eqn:E; simpl.
  - destruct (Requests.pop (xid rep) R) as [reqs R'] eqn:EP. simpl.
    change reqs with (reqs, R').1. rewrite <- EP. apply pop_fst.
  - reflexivity.
Qed.

Lemma pop_requests_snd rep T :
  (pop_requests rep T).2
  = <[client rep := delete (xid rep) (default Requests.init (T !! client rep))]> T.
Proof.
  unfold pop_requests, getitem.
  destruct (T !! client rep) as [R|] eqn:E; simpl.
  - destruct (Requests.pop (xid rep) R) as [reqs R'] eqn:EP. simpl.
    change R' with (reqs, R').2. by rewrite <- EP, pop_snd.
  - rewrite pop_init. simpl. unfold Requests.init.
    by rewrite insert_insert_eq, delete_empty.
Qed.

Lemma pending_empty c x : pending c x ∅ = [].
Proof. unfold pending. by rewrite lookup_empty. Qed.

Lemma pending_add_eq req T :
  pending (client req) (xid req) (add_request req T)
  = pending (client req) (xid req) T ++ [req].
Proof.
  rewrite add_request_lookup. unfold pending, Requests.add.
  rewrite lookup_insert_eq. simpl. rewrite lookup_insert_eq. simpl.
  by rewrite lookup_default_init.
Qed.

Lemma pending_add_ne req c x T :
  (c, x) ≠ key req → pending c x (add_request req T) = pending c x T.
Proof.
  intros Hne. rewrite add_request_lookup. unfold pending, Requests.add.
  destruct (decide (client req = c)) as [<-|Hc].
  - rewrite lookup_insert_eq. simpl.
    rewrite lookup_insert_ne by (intros <-; by apply Hne).
    by rewrite lookup_default_init.
  - by rewrite lookup_insert_ne.
Qed.

Lemma pending_pop_eq rep T :
  pending (client rep) (xid rep) (pop_requests rep T).2 = [].
Proof.
  rewrite pop_requests_snd. unfold pending.
  rewrite lookup_insert_eq. simpl. by rewrite lookup_delete_eq.
Qed.

Lemma pending_pop_ne rep c x T :
  (c, x) ≠ key rep → pending c x (pop_requests rep T).2 = pending c x T.
Proof.
  intros Hne. rewrite pop_requests_snd. unfold pending.
  destruct (decide (client rep = c)) as [<-|Hc].
  - rewrite lookup_insert_eq. simpl.
    rewrite lookup_delete_ne by (intros <-; by apply Hne).
    by rewrite lookup_default_init.
  - by rewrite lookup_insert_ne.
Qed.

(** Popping a key with nothing buffered leaves every entry as it was. *)
Lemma pending_pop_nil rep c x T :
  pending (client rep) (xid rep) T = [] →
  pending c x (pop_requests rep T).2 = pending c x T.
Proof.
  intros Hnil. destruct (decide ((c, x) = key rep)) as [[= -> ->]|Hne].
  - by rewrite pending_pop_eq.
  - by apply pending_pop_ne.
Qed.

End Table.

(** C7. For every table and every xid, [pop] returns the whole list stored
    under the xid (the empty list when the key is absent) and removes the
    key in the same step: afterwards the key is absent, a second [pop] of
    the same xid returns the empty list, and every other key still holds its
    list.  [add], the only other operation, removes nothing: every key that
    was present stays present and its list only grows at the end. *)
Theorem C7_pop_whole_list (self : Requests.t) (x : Z) :
  (Requests.pop x self).1 = default [] (self !! x)
  ∧ (Requests.pop x self).2 !! x = None
  ∧ (Requests.pop x (Requests.pop x self).2).1 = []
  ∧ (∀ y, y ≠ x → (Requests.pop x self).2 !! y = self !! y)
  ∧ (∀ req y reqs, self !! y = Some reqs →
       ∃ more, Requests.add req self !! y = Some (reqs ++ more)).
Proof.
  repeat split.
  - apply pop_fst.
  - rewrite pop_snd. apply lookup_delete_eq.
  - rewrite pop_fst, pop_snd. by rewrite lookup_delete_eq.
  - intros y Hy. rewrite pop_snd. by apply lookup_delete_ne.
  - intros req y reqs Hy. unfold Requests.add.
    destruct (decide (xid req = y)) as [->|Hne].
    + exists [req]. by rewrite lookup_insert_eq, Hy.
    + exists []. by rewrite lookup_insert_ne, app_nil_r.
Qed.

(** ** One reply in the loop of a pairing printer *)

Section OneReply.
Context `{Imports}.

(** What an iteration of [DefaultPrinter.run] does with the reply at the
    head of the queue. *)
Lemma run_iter_cons (self : DefaultPrinter.t) rep replies :
  DefaultPrinter._replies self = rep :: replies →
  DefaultPrinter.run_iter self =
    let by_client := DefaultPrinter._requests_by_client self in
    let self' := DefaultPrinter.Build (DefaultPrinter.colors self)
                   (DefaultPrinter.loopback self) (pop_requests rep by_client).2
                   replies (DefaultPrinter.stdout self) in
    match pending (client rep) (xid rep) by_client with
    | [] => self'
    | reqs => DefaultPrinter.write
                (if DefaultPrinter.loopback self
                 then firstn 1 reqs ++ [rep] else reqs ++ [rep]) self'
    end.
Proof.
  intros Hq. unfold DefaultPrinter.run_iter. rewrite Hq.
  rewrite <- pop_requests_fst.
  by destruct (pop_requests rep _) as [[|req reqs] by_client].
Qed.

Lemma run_iter_nil (self : DefaultPrinter.t) :
  DefaultPrinter._replies self = [] → DefaultPrinter.run_iter self = self.
Proof. intros Hq. unfold DefaultPrinter.run_iter. by rewrite Hq. Qed.

(** The same for an iteration of [LatencyPrinter.wait_for_requests] that
    finds nothing buffered for the reply. *)
Lemma wait_iter_unmatched (self : LatencyPrinter.t) rep replies :
  (LatencyPrinter._seen self < LatencyPrinter._count self) →
  LatencyPrinter._replies self = rep :: replies →
  pending (client rep) (xid rep) (LatencyPrinter._requests_by_client self) = [] →
  LatencyPrinter.wait_iter self =
    (LatencyPrinter.Next,
     LatencyPrinter.set_requests
       (pop_requests rep (LatencyPrinter._requests_by_client self)).2
       (LatencyPrinter.set_replies replies self)).
Proof.
  intros Hlt Hq Hnil. unfold LatencyPrinter.wait_iter.
  rewrite decide_True by done. rewrite Hq. simpl.
  rewrite <- pop_requests_fst in Hnil.
  destruct (pop_requests rep _) as [reqs by_client]. simpl in Hnil.
  by subst reqs.
Qed.

End OneReply.

(** What an iteration writes for a reply that matches a buffered list. *)
Lemma matched_reply (self : DefaultPrinter.t) (rep : msg)
    (replies : list msg) (first : msg) (rest : list msg) :
  DefaultPrinter._replies self = rep :: replies →
  pending (client rep) (xid rep) (DefaultPrinter._requests_by_client self)
    = first :: rest →
  DefaultPrinter.stdout (DefaultPrinter.run_iter self)
    = DefaultPrinter.stdout self
      ++ [if DefaultPrinter.loopback self then [first; rep]
          else first :: rest ++ [rep]]
  ∧ pending (client rep) (xid rep)
      (DefaultPrinter._requests_by_client (DefaultPrinter.run_iter self)) = []
  ∧ DefaultPrinter._replies (DefaultPrinter.run_iter self) = replies.
Proof.
  intros Hq Hp. rewrite (run_iter_cons _ _ _ Hq).
  cbv zeta. rewrite Hp. simpl. split_and!.
  - by destruct (DefaultPrinter.loopback self).
  - apply pending_pop_eq.
  - done.
Qed.

(** C2. When the reply at the head of the queue matches a non-empty
    buffered list, one iteration of the Paired loop writes one group: with
    loopback dedupe on, the first buffered request followed by the reply;
    with dedupe off, every buffered request followed by the reply.  In both
    cases the whole list leaves the table, so the later duplicates are
    discarded, and the reply leaves the queue. *)
Theorem C2_loopback_dedupe (self : DefaultPrinter.t) (rep : msg)
    (replies : list msg) (first : msg) (rest : list msg) :
  DefaultPrinter._replies self = rep :: replies →
  pending (client rep) (xid rep) (DefaultPrinter._requests_by_client self)
    = first :: rest →
  let self' := DefaultPrinter.run_iter self in
  DefaultPrinter.stdout self'
    = DefaultPrinter.stdout self
      ++ [if DefaultPrinter.loopback self then [first; rep]
          else first :: rest ++ [rep]]
  ∧ pending (client rep) (xid rep) (DefaultPrinter._requests_by_client self') = []
  ∧ DefaultPrinter._replies self' = replies.
Proof.
  intros Hq Hp self'. subst self'. by apply matched_reply.
Qed.

(** C6. When nothing is buffered for the key of the reply at the head of
    the queue, an iteration of either pairing loop drops the reply and goes
    on.  Paired: nothing is written and every buffered list is as before.
    Latency (while the target is not reached): the iteration ends normally,
    nothing is written, the matched-pair count and the latency samples are
    unchanged, and every buffered list is as before. *)
Theorem C6_unmatched_reply_dropped `{Imports} (rep : msg) (replies : list msg) :
  (∀ self : DefaultPrinter.t,
     DefaultPrinter._replies self = rep :: replies →
     pending (client rep) (xid rep) (DefaultPrinter._requests_by_client self) = [] →
     let self' := DefaultPrinter.run_iter self in
     DefaultPrinter.stdout self' = DefaultPrinter.stdout self
     ∧ DefaultPrinter._replies self' = replies
     ∧ ∀ c x, pending c x (DefaultPrinter._requests_by_client self')
              = pending c x (DefaultPrinter._requests_by_client self))
  ∧ (∀ self : LatencyPrinter.t,
     LatencyPrinter._seen self < LatencyPrinter._count self →
     LatencyPrinter._replies self = rep :: replies →
     pending (client rep) (xid rep) (LatencyPrinter._requests_by_client self) = [] →
     let '(how, self') := LatencyPrinter.wait_iter self in
     how = LatencyPrinter.Next
     ∧ LatencyPrinter.stdout self' = LatencyPrinter.stdout self
     ∧ LatencyPrinter._seen self' = LatencyPrinter._seen self
     ∧ LatencyPrinter._latencies_by_group self'
       = LatencyPrinter._latencies_by_group self
     ∧ LatencyPrinter._replies self' = replies
     ∧ ∀ c x, pending c x (LatencyPrinter._requests_by_client self')
              = pending c x (LatencyPrinter._requests_by_client self)).
Proof.
  split.
  - intros self Hq Hnil self'. subst self'. rewrite (run_iter_cons _ _ _ Hq).
    cbv zeta. rewrite Hnil. simpl. split_and!; [done | done |].
    intros c x. by apply pending_pop_nil.
  - intros self Hlt Hq Hnil. rewrite (wait_iter_unmatched _ _ _ Hlt Hq Hnil).
    simpl. split_and!; try done.
    intros c x. by apply pending_pop_nil.
Qed.

(** ** Schedules of the Paired printer *)

Section Paired.
Context `{Imports}.
Import DefaultPrinter.

Implicit Types (self : DefaultPrinter.t) (tr : list action).

Lemma exec_app tr1 tr2 self : exec (tr1 ++ tr2) self = exec tr2 (exec tr1 self).
Proof. apply foldl_app. Qed.

Lemma exec_cons a tr self : exec (a :: tr) self = exec tr (step a self).
Proof. done. Qed.

(** A schedule whose handler calls are [cs1] then [cs2] splits in two. *)
Lemma callbacks_app_inv tr cs1 cs2 :
  callbacks tr = cs1 ++ cs2 →
  ∃ tr1 tr2, tr = tr1 ++ tr2 ∧ callbacks tr1 = cs1 ∧ callbacks tr2 = cs2.
Proof.
  revert cs1. induction tr as [|a tr IH]; intros cs1 Hcs.
  - symmetry in Hcs. apply app_eq_nil in Hcs as [-> ->]. by exists [], [].
  - destruct a as [c| |]; simpl in Hcs.
    + destruct cs1 as [|c1 cs1]; simpl in Hcs.
      * exists [], (Sniffer c :: tr). by subst cs2.
      * injection Hcs as <- Hcs. destruct (IH _ Hcs) as (tr1 & tr2 & -> & <- & <-).
        by exists (Sniffer c :: tr1), tr2.
    + destruct (IH _ Hcs) as (tr1 & tr2 & -> & <- & <-).
      by exists (Printer :: tr1), tr2.
    + destruct (IH _ Hcs) as (tr1 & tr2 & -> & <- & <-).
      by exists (Main :: tr1), tr2.
Qed.

Lemma loopback_step a self : loopback (step a self) = loopback self.
Proof.
  destruct a as [[req|rep|evt]| |]; simpl; try done.
  - unfold request_handler. by case_decide.
  - unfold run_iter. destruct (_replies self) as [|rep replies]; [done |].
    by destruct (pop_requests rep _) as [[|req reqs] by_client].
Qed.

Lemma loopback_exec tr self : loopback (exec tr self) = loopback self.
Proof.
  revert self. induction tr as [|a tr IH]; intros self; [done |].
  by rewrite exec_cons, IH, loopback_step.
Qed.

(** *** While requests arrive *)

(** With an empty reply queue the printer thread only sleeps, so a
    schedule whose handler calls are all requests, none of them a close,
    only fills the table. *)
Lemma exec_requests tr reqs self :
  callbacks tr = OnRequest <$> reqs →
  Forall (λ req, opcode req ≠ CLOSE) reqs →
  _replies self = [] →
  _replies (exec tr self) = []
  ∧ stdout (exec tr self) = stdout self
  ∧ ∀ c x, pending c x (_requests_by_client (exec tr self))
           = pending c x (_requests_by_client self)
             ++ filter (λ req, key req = (c, x)) reqs.
Proof.
  revert reqs self. induction tr as [|a tr IH]; intros reqs self Hcs Hop Hq.
  - destruct reqs; [|done]. simpl. split_and!; try done.
    intros c x. by rewrite filter_nil, app_nil_r.
  - destruct a as [cb| |]; simpl in Hcs.
    + destruct reqs as [|req reqs]; [done |]. injection Hcs as -> Hcs.
      apply Forall_cons in Hop as [Hreq Hop].
      rewrite exec_cons. simpl.
      assert (request_handler req self
              = Build (colors self) (loopback self)
                      (add_request req (_requests_by_client self))
                      (_replies self) (stdout self)) as ->.
      { unfold request_handler. by rewrite decide_False. }
      destruct (IH reqs (Build (colors self) (loopback self)
                               (add_request req (_requests_by_client self))
                               (_replies self) (stdout self)) Hcs Hop Hq)
        as (Hq' & Hout & Hpend).
      split_and!; [exact Hq' | exact Hout |].
      intros c x. rewrite Hpend. simpl. rewrite filter_cons.
      case_decide as Hk.
      * injection Hk as <- <-. by rewrite pending_add_eq, <- app_assoc.
      * rewrite pending_add_ne; [done | congruence].
    + rewrite exec_cons. simpl. rewrite run_iter_nil by done. by apply IH.
    + rewrite exec_cons. simpl. by apply IH.
Qed.

(** *** While replies arrive *)

Lemma outlook_run_iter more self : outlook more (run_iter self) = outlook more self.
Proof.
  unfold outlook, run_iter.
  destruct (_replies self) as [|rep replies] eqn:Hq; [by rewrite Hq |].
  simpl. destruct (pop_requests rep _) as [[|req reqs] by_client]; simpl; [done |].
  by rewrite <- app_assoc.
Qed.

Lemma outlook_reply_handler rep more self :
  outlook more (reply_handler rep self) = outlook (rep :: more) self.
Proof. unfold outlook. simpl. by rewrite <- app_assoc. Qed.

Lemma length_replies_run_iter self :
  length (_replies (run_iter self)) = pred (length (_replies self)).
Proof.
  unfold run_iter. destruct (_replies self) as [|rep replies] eqn:Hq; [by rewrite Hq |].
  by destruct (pop_requests rep _) as [[|req reqs] by_client].
Qed.

(** Enough iterations empty the queue. *)
Lemma exec_printer_drains n self :
  (length (_replies self) ≤ n)%nat →
  stdout (exec (replicate n Printer) self) = outlook [] self.
Proof.
  revert self. induction n as [|n IH]; intros self Hn.
  - simpl. unfold outlook. destruct (_replies self); [|simpl in Hn; lia].
    by rewrite app_nil_r.
  - simpl replicate. rewrite exec_cons. simpl. rewrite IH.
    + apply outlook_run_iter.
    + rewrite length_replies_run_iter. lia.
Qed.

(** A schedule whose handler calls are all replies, followed by enough
    iterations of the loop, writes what [drain] says, whatever the
    interleaving. *)
Lemma exec_replies tr reps n self :
  callbacks tr = OnReply <$> reps →
  (length (_replies self) + length reps ≤ n)%nat →
  stdout (exec (tr ++ replicate n Printer) self) = outlook reps self.
Proof.
  revert reps self. induction tr as [|a tr IH]; intros reps self Hcs Hn.
  - destruct reps; [|done]. simpl. apply exec_printer_drains. simpl in Hn. lia.
  - destruct a as [cb| |]; simpl in Hcs.
    + destruct reps as [|rep reps]; [done |]. injection Hcs as -> Hcs.
      simpl app. rewrite exec_cons. simpl. rewrite (IH reps).
      * apply outlook_reply_handler.
      * done.
      * simpl. rewrite length_app. simpl in *. lia.
    + simpl app. rewrite exec_cons. simpl. rewrite (IH reps).
      * apply outlook_run_iter.
      * done.
      * rewrite length_replies_run_iter. lia.
    + simpl app. rewrite exec_cons. simpl. by apply IH.
Qed.

(** *** Draining a table that holds one request per reply *)

Lemma drain_pairs (pairs : list (msg * msg)) (T : requests_by_client) :
  NoDup (key <$> pairs.*1) →
  Forall (λ '(req, rep), key rep = key req
                         ∧ pending (client req) (xid req) T = [req]) pairs →
  drain false pairs.*2 T = (λ '(req, rep), [req; rep]) <$> pairs.
Proof.
  revert T. induction pairs as [|[req rep] pairs IH]; intros T Hnd Hall; [done |].
  apply Forall_cons in Hall as [[Hk Hp] Hall].
  simpl in Hnd. apply NoDup_cons in Hnd as [Hnotin Hnd].
  assert (client rep = client req ∧ xid rep = xid req) as [Hc Hx].
  { by injection Hk. }
  simpl. pose proof (pop_requests_fst rep T) as Hfst.
  destruct (pop_requests rep T) as [reqs T'] eqn:Hpop. simpl in Hfst.
  rewrite Hc, Hx, Hp in Hfst. subst reqs. simpl. f_equal.
  apply IH; [done |].
  rewrite Forall_forall in Hall. apply Forall_forall.
  intros [req' rep'] Hin. destruct (Hall _ Hin) as [Hk' Hp']. split; [done |].
  replace T' with (pop_requests rep T).2 by by rewrite Hpop.
  rewrite pending_pop_ne; [done |].
  intros Heq. apply Hnotin. rewrite <- Hk, <- Heq.
  change (client req', xid req') with (key req').
  apply list_elem_of_fmap. exists req'. split; [done |].
  apply list_elem_of_fmap. by exists (req', rep').
Qed.

End Paired.

Lemma filter_none {A} (P : A → Prop) `{∀ x, Decision (P x)} (l : list A) :
  (∀ y, y ∈ l → ¬ P y) → filter P l = [].
Proof.
  induction l as [|y l IH]; intros Hno; [done |].
  rewrite filter_cons, decide_False by (apply Hno; left).
  apply IH. intros z Hz. apply Hno. by right.
Qed.

(** Among items with pairwise different keys, one key selects one item. *)
Lemma filter_key_NoDup {A B} `{EqDecision B} (f : A → B) (l : list A) (x : A) :
  NoDup (f <$> l) → x ∈ l → filter (λ y, f y = f x) l = [x].
Proof.
  induction l as [|y l IH]; intros Hnd Hin; [by apply elem_of_nil in Hin |].
  simpl in Hnd. apply NoDup_cons in Hnd as [Hy Hnd].
  rewrite filter_cons. destruct (decide (f y = f x)) as [Heq|Hne].
  - apply elem_of_cons in Hin as [->|Hin].
    + f_equal. apply filter_none. intros z Hz Hfz. apply Hy. rewrite <- Hfz.
      apply list_elem_of_fmap. by exists z.
    + exfalso. apply Hy. rewrite Heq. apply list_elem_of_fmap. by exists x.
  - apply elem_of_cons in Hin as [->|Hin]; [done |]. by apply IH.
Qed.

(** C1. Take requests with pairwise different (client, xid) keys, none of
    them a close, handed to the Paired printer with loopback dedupe off and
    followed by one reply for each request, the replies in any order.
    Whatever the interleaving of the handler calls with the printer thread,
    once the thread has had as many further iterations as there are
    replies, the output is exactly one group per pair, the request before
    its reply, the groups in the order in which the replies arrived. *)
Theorem C1_paired_groups `{Imports} (colors : bool) (pairs : list (msg * msg))
    (reqs : list msg) (tr : list action) (n : nat) :
  reqs ≡ₚ pairs.*1 →
  NoDup (key <$> reqs) →
  Forall (λ '(req, rep), key rep = key req ∧ opcode req ≠ CLOSE) pairs →
  callbacks tr = (OnRequest <$> reqs) ++ (OnReply <$> pairs.*2) →
  (length pairs ≤ n)%nat →
  DefaultPrinter.stdout
    (DefaultPrinter.exec (tr ++ replicate n Printer) (DefaultPrinter.init colors false))
  = (λ '(req, rep), [req; rep]) <$> pairs.
Proof.
  intros Hperm Hnd Hall Hcs Hn.
  destruct (callbacks_app_inv _ _ _ Hcs) as (tr1 & tr2 & -> & Hcs1 & Hcs2).
  rewrite <- app_assoc, exec_app.
  assert (Forall (λ req, opcode req ≠ CLOSE) reqs) as Hop.
  { rewrite Hperm. clear -Hall. induction Hall as [|[req rep] pairs [_ Hop] _ IH]; simpl.
    - constructor.
    - by constructor. }
  destruct (exec_requests tr1 reqs (DefaultPrinter.init colors false) Hcs1 Hop eq_refl)
    as (Hq & Hout & Hpend).
  rewrite (exec_replies tr2 pairs.*2).
  - unfold outlook. rewrite Hq, Hout, loopback_exec. simpl.
    apply drain_pairs.
    + by rewrite <- Hperm.
    + apply Forall_forall. intros [req rep] Hin.
      rewrite Forall_forall in Hall. destruct (Hall _ Hin) as [Hk _].
      split; [done |]. rewrite Hpend. rewrite pending_empty. simpl.
      apply (filter_key_NoDup key); [done |].
      rewrite Hperm. apply list_elem_of_fmap. by exists (req, rep).
  - done.
  - rewrite Hq. simpl. by rewrite length_fmap.
Qed.

(** ** Close requests *)

Lemma elem_of_pending_pop rep c x (T : requests_by_client) (m : msg) :
  m ∈ pending c x (pop_requests rep T).2 → m ∈ pending c x T.
Proof.
  destruct (decide ((c, x) = key rep)) as [[= -> ->]|Hne].
  - rewrite pending_pop_eq. by intros ?%elem_of_nil.
  - by rewrite pending_pop_ne.
Qed.

Lemma elem_of_pending_add req c x (T : requests_by_client) (m : msg) :
  m ∈ pending c x (add_request req T) → m = req ∨ m ∈ pending c x T.
Proof.
  destruct (decide ((c, x) = key req)) as [[= -> ->]|Hne].
  - rewrite pending_add_eq. intros [?|?%list_elem_of_singleton]%elem_of_app; auto.
  - rewrite pending_add_ne by done. auto.
Qed.

Section Close.
Context `{Imports}.

Lemma no_close_pop rep T : no_close T → no_close (pop_requests rep T).2.
Proof. intros HT c x req Hin%elem_of_pending_pop. by apply (HT c x). Qed.

Lemma no_close_add req T :
  opcode req ≠ CLOSE → no_close T → no_close (add_request req T).
Proof.
  intros Hop HT c x m [->|Hin]%elem_of_pending_add; [done |]. by apply (HT c x).
Qed.

Lemma no_close_paired_snoc out msgs :
  no_close_paired out →
  (∀ req, req ∈ removelast msgs → opcode req ≠ CLOSE) →
  no_close_paired (out ++ [msgs]).
Proof.
  intros Hout Hmsgs g req [Hg|Hg%list_elem_of_singleton]%elem_of_app Hreq.
  - by apply (Hout g).
  - subst g. by apply Hmsgs.
Qed.

Lemma paired_step_no_close a (self : DefaultPrinter.t) :
  no_close (DefaultPrinter._requests_by_client self)
  ∧ no_close_paired (DefaultPrinter.stdout self) →
  no_close (DefaultPrinter._requests_by_client (DefaultPrinter.step a self))
  ∧ no_close_paired (DefaultPrinter.stdout (DefaultPrinter.step a self)).
Proof.
  intros [HT Hout]. destruct a as [[req|rep|evt]| |]; simpl; try done.
  - unfold DefaultPrinter.request_handler. case_decide as Hop; simpl.
    + split; [done |]. apply no_close_paired_snoc; [done |].
      simpl. by intros ? ?%elem_of_nil.
    + split; [| done]. by apply no_close_add.
  - split; [done |]. apply no_close_paired_snoc; [done |].
    simpl. by intros ? ?%elem_of_nil.
  - destruct (DefaultPrinter._replies self) as [|rep replies] eqn:Hq.
    + by rewrite run_iter_nil.
    + rewrite (run_iter_cons _ _ _ Hq). cbv zeta.
      destruct (pending (client rep) (xid rep) _) as [|req reqs] eqn:Hp; simpl.
      * split; [| done]. by apply no_close_pop.
      * split; [by apply no_close_pop |].
        apply no_close_paired_snoc; [done |].
        intros m Hm. apply (HT (client rep) (xid rep)). rewrite Hp.
        destruct (DefaultPrinter.loopback self).
        -- simpl in Hm. apply list_elem_of_singleton in Hm as ->. left.
        -- rewrite app_comm_cons, removelast_last in Hm. done.
Qed.

Lemma report_block_requests l (self : LatencyPrinter.t) :
  LatencyPrinter._requests_by_client (LatencyPrinter.report_block l self).2
  = LatencyPrinter._requests_by_client self.
Proof.
  destruct l; simpl; try done.
  - by destruct (LatencyPrinter._report_done self).
  - by case_decide.
  - unfold LatencyPrinter.report_emit.
    by destruct (LatencyPrinter.data _).
Qed.

Lemma wait_iter_no_close (self : LatencyPrinter.t) :
  no_close (LatencyPrinter._requests_by_client self) →
  no_close (LatencyPrinter._requests_by_client (LatencyPrinter.wait_iter self).2).
Proof.
  intros HT. unfold LatencyPrinter.wait_iter. case_decide; [| done].
  destruct (LatencyPrinter._replies self) as [|rep replies]; [done |]. simpl.
  pose proof (no_close_pop rep _ HT) as HT'.
  destruct (pop_requests rep _) as [[|req reqs] by_client]; simpl in *; [done |].
  by destruct (key_of req _ _).
Qed.

Lemma latency_step_no_close a (T : LatencyPrinter.threads) :
  no_close (LatencyPrinter._requests_by_client (LatencyPrinter.self T)) →
  no_close (LatencyPrinter._requests_by_client
              (LatencyPrinter.self (LatencyPrinter.step a T))).
Proof.
  intros HT. destruct a as [[req|rep|evt]| |]; simpl; try done.
  - unfold LatencyPrinter.request_handler. case_decide; simpl; [| done].
    by apply no_close_add.
  - unfold LatencyPrinter.printer_step. destruct (LatencyPrinter.printer T); try done.
    + pose proof (wait_iter_no_close _ HT) as HT'.
      by destruct (LatencyPrinter.wait_iter _) as [[] s].
    + pose proof (report_block_requests l (LatencyPrinter.self T)) as E.
      destruct (LatencyPrinter.report_block l _) as [p s]. simpl in *. by rewrite E.
  - unfold LatencyPrinter.main_step. destruct (LatencyPrinter.main T); try done.
    pose proof (report_block_requests l (LatencyPrinter.self T)) as E.
    destruct (LatencyPrinter.report_block l _) as [p s]. simpl in *. by rewrite E.
Qed.

Lemma no_close_empty : no_close ∅.
Proof. intros c x req. rewrite pending_empty. by intros ?%elem_of_nil. Qed.

End Close.

(** C5. A close request is never buffered.  Handed a close request, the
    Paired printer writes it at once as a group of its own and leaves the
    table as it is, and the Latency printer does nothing at all.  In every
    run of either printer from its initial state, whatever the handler
    calls and the interleaving, no buffered request is a close request; and
    in every group the Paired printer has written, no message before the
    last one (that is, no request of a request/reply group) is a close
    request. *)
Theorem C5_close_never_buffered `{Imports} :
  (∀ (self : DefaultPrinter.t) req, opcode req = CLOSE →
     DefaultPrinter._requests_by_client (DefaultPrinter.request_handler req self)
       = DefaultPrinter._requests_by_client self
     ∧ DefaultPrinter.stdout (DefaultPrinter.request_handler req self)
       = DefaultPrinter.stdout self ++ [[req]])
  ∧ (∀ (self : LatencyPrinter.t) req, opcode req = CLOSE →
     LatencyPrinter.request_handler req self = self)
  ∧ (∀ tr colors loopback,
     let self := DefaultPrinter.exec tr (DefaultPrinter.init colors loopback) in
     (∀ c x req, req ∈ pending c x (DefaultPrinter._requests_by_client self) →
                 opcode req ≠ CLOSE)
     ∧ (∀ msgs req, msgs ∈ DefaultPrinter.stdout self → req ∈ removelast msgs →
                    opcode req ≠ CLOSE))
  ∧ (∀ tr count group_by loopback depth sort_by,
     let T := LatencyPrinter.exec tr
                (LatencyPrinter.start
                   (LatencyPrinter.init count group_by loopback depth sort_by)) in
     ∀ c x req,
       req ∈ pending c x (LatencyPrinter._requests_by_client (LatencyPrinter.self T)) →
       opcode req ≠ CLOSE).
Proof.
  split_and!.
  - intros self req Hop. unfold DefaultPrinter.request_handler.
    by rewrite decide_True.
  - intros self req Hop. unfold LatencyPrinter.request_handler.
    by rewrite decide_False by tauto.
  - intros tr colors loopback.
    assert (∀ s, no_close (DefaultPrinter._requests_by_client s)
                 ∧ no_close_paired (DefaultPrinter.stdout s) →
                 no_close (DefaultPrinter._requests_by_client (DefaultPrinter.exec tr s))
                 ∧ no_close_paired (DefaultPrinter.stdout (DefaultPrinter.exec tr s)))
      as Hinv.
    { induction tr as [|a tr IH]; intros s Hs; [done |].
      rewrite exec_cons. by apply IH, paired_step_no_close. }
    apply Hinv. split; [apply no_close_empty |].
    intros msgs req. simpl. by intros ?%elem_of_nil.
  - intros tr count group_by loopback depth sort_by.
    assert (∀ T, no_close (LatencyPrinter._requests_by_client (LatencyPrinter.self T)) →
                 no_close (LatencyPrinter._requests_by_client
                             (LatencyPrinter.self (LatencyPrinter.exec tr T))))
      as Hinv.
    { induction tr as [|a tr IH]; intros T HT; [done |].
      simpl. by apply IH, latency_step_no_close. }
    apply Hinv. apply no_close_empty.
Qed.


(** ** Sorting in reverse *)

Section SortedReverse.
Context {A K : Type} (ltb : K → K → bool) (key : A → K).

Lemma insert_reverse_perm x l : insert_reverse ltb key x l ≡ₚ x :: l.
Proof.
  induction l as [|y l IH]; simpl; [done |].
  destruct (ltb (key x) (key y)); [| done].
  by rewrite IH, Permutation_swap.
Qed.

Lemma sorted_reverse_perm l : sorted_reverse ltb key l ≡ₚ l.
Proof.
  induction l as [|x l IH]; simpl; [done |].
  by rewrite insert_reverse_perm, IH.
Qed.

End SortedReverse.

Lemma insert_reverse_Sorted {A} (key : A → Z) x l :
  Sorted (λ a b, key b ≤ key a) l →
  Sorted (λ a b, key b ≤ key a) (insert_reverse Z.ltb key x l).
Proof.
  induction 1 as [|y l Hl IH Hhd]; simpl.
  - by repeat constructor.
  - destruct (Z.ltb_spec (key x) (key y)) as [Hlt|Hge].
    + constructor; [done |].
      destruct l as [|z l]; simpl in *.
      * constructor. lia.
      * destruct (Z.ltb_spec (key x) (key z)).
        -- constructor. by inversion Hhd.
        -- constructor. lia.
    + constructor; [by constructor |]. by constructor.
Qed.

Lemma sorted_reverse_Sorted {A} (key : A → Z) l :
  Sorted (λ a b, key b ≤ key a) (sorted_reverse Z.ltb key l).
Proof.
  induction l as [|x l IH]; simpl; [constructor |].
  by apply insert_reverse_Sorted.
Qed.

(** ** Tallies *)

Lemma Zsum_perm l l' : l ≡ₚ l' → Zsum l = Zsum l'.
Proof. induction 1; simpl; lia. Qed.

(** The sum of the values of a dictionary. *)
Lemma Zsum_insert (m : gmap string Z) k v :
  Zsum (map_to_list (<[k := v]> m)).*2
  = Zsum (map_to_list m).*2 - default 0 (m !! k) + v.
Proof.
  destruct (m !! k) as [w|] eqn:Hk; simpl.
  - rewrite <- (insert_delete_eq m k v).
    rewrite (Zsum_perm _ ((k, v) :: map_to_list (delete k m)).*2).
    + rewrite (Zsum_perm (map_to_list m).*2 ((k, w) :: map_to_list (delete k m)).*2).
      * rewrite !fmap_cons. unfold Zsum. simpl. lia.
      * apply fmap_Permutation. symmetry. by apply map_to_list_delete.
    + apply fmap_Permutation, map_to_list_insert, lookup_delete_eq.
  - rewrite (Zsum_perm _ ((k, v) :: map_to_list m).*2).
    + rewrite fmap_cons. unfold Zsum. simpl. lia.
    + by apply fmap_Permutation, map_to_list_insert.
Qed.

Lemma tally_snoc keys k :
  tally (keys ++ [k]) = <[k := default 0 (tally keys !! k) + 1]> (tally keys).
Proof. unfold tally. by rewrite foldl_app. Qed.

Lemma Zsum_tally keys : Zsum (map_to_list (tally keys)).*2 = Z.of_nat (length keys).
Proof.
  induction keys as [|k keys IH] using rev_ind.
  - unfold tally. simpl. by rewrite map_to_list_empty.
  - rewrite tally_snoc, Zsum_insert, IH, length_app. simpl. lia.
Qed.

(** ** Schedules of the Count printer *)

Section Count.
Context `{Imports}.
Import CountPrinter.

Lemma key_of_valid m g d :
  g ∈ ["path"; "type"; "client"] → is_Some (key_of m g d).
Proof.
  intros Hg. unfold key_of. repeat case_decide; try done.
  exfalso. repeat (apply elem_of_cons in Hg as [?|Hg]; [done |]).
  by apply elem_of_nil in Hg.
Qed.

Lemma count_inv_add N g d ms m self :
  0 ≤ N → g ∈ ["path"; "type"; "client"] →
  count_inv N g d ms self →
  ∃ self', _add m self = Some self' ∧ count_inv N g d (ms ++ [m]) self'.
Proof.
  intros HN Hg (Hc & Hg' & Hd & Hseen & Hreq & Hth). unfold _add.
  case_decide as Hfull.
  - exists self. split; [done |].
    assert (Z.to_nat N ≤ length ms)%nat as Hle by lia.
    unfold count_inv. rewrite take_app_le by done. rewrite length_app. simpl.
    split_and!; try done; [lia |].
    destruct (thread self); [done |]. split; [lia | by apply Hth].
  - assert (length ms < Z.to_nat N)%nat as Hlt by lia.
    destruct (key_of_valid m g d Hg) as [k Hk]. rewrite Hg', Hd, Hk. simpl.
    eexists. split; [done |]. unfold count_inv. simpl.
    rewrite length_app. simpl. split_and!; try done; [lia | |].
    + rewrite take_ge by (rewrite length_app; simpl; lia).
      unfold keys_of. rewrite omap_app. simpl. rewrite Hk. simpl.
      rewrite tally_snoc. rewrite Hreq, take_ge by lia. done.
    + destruct (thread self); [done |]. lia.
Qed.

Lemma count_inv_step N g d ms a self :
  0 ≤ N → g ∈ ["path"; "type"; "client"] →
  count_inv N g d ms self →
  ∃ self', step a self = Some self'
           ∧ count_inv N g d (ms ++ qualifying (callbacks [a])) self'.
Proof.
  intros HN Hg Hinv. destruct a as [[req|rep|evt]| |]; simpl.
  - by apply count_inv_add.
  - exists self. by rewrite app_nil_r.
  - by apply count_inv_add.
  - rewrite app_nil_r. eexists. split; [done |].
    destruct Hinv as (Hc & Hg' & Hd & Hseen & Hreq & Hth).
    unfold run_step. destruct (thread self) eqn:Hpc.
    + case_decide as Hlt.
      * unfold count_inv. by rewrite Hpc.
      * unfold count_inv. simpl. rewrite Hth. split_and!; try done. lia.
    + unfold count_inv. by rewrite Hpc.
  - rewrite app_nil_r. by exists self.
Qed.

Lemma count_inv_exec N g d tr : ∀ ms self,
  0 ≤ N → g ∈ ["path"; "type"; "client"] →
  count_inv N g d ms self →
  ∃ self', exec tr self = Some self'
           ∧ count_inv N g d (ms ++ qualifying (callbacks tr)) self'.
Proof.
  induction tr as [|a tr IH]; intros ms self HN Hg Hinv.
  - exists self. by rewrite app_nil_r.
  - destruct (count_inv_step N g d ms a self HN Hg Hinv) as (s1 & Hs1 & Hinv1).
    destruct (IH _ s1 HN Hg Hinv1) as (s2 & Hs2 & Hinv2).
    exists s2. split.
    + simpl. rewrite Hs1. simpl. exact Hs2.
    + replace (callbacks (a :: tr)) with (callbacks [a] ++ callbacks tr)
        by (by destruct a).
      unfold qualifying in *. by rewrite omap_app, app_assoc.
Qed.

Lemma count_exec_app tr1 tr2 self :
  exec (tr1 ++ tr2) self = exec tr1 self ≫= exec tr2.
Proof.
  revert self. induction tr1 as [|a tr1 IH]; intros self; [done |].
  simpl. destruct (step a self) as [s1|]; simpl; [apply IH | done].
Qed.

Lemma count_inv_init N g lb d : 0 ≤ N → count_inv N g d [] (init N g lb d).
Proof.
  intros HN. unfold count_inv. simpl. split_and!; try done; [lia |].
  by rewrite take_nil.
Qed.

End Count.

(** C8. A Count printer is built for [N] samples with a valid grouping
    mode, and the sniffer delivers at least [N] requests and events, mixed
    with any number of replies and interleaved in any way with the printer
    thread.  Then no handler raises, and after one more step of the thread
    it has returned; the accepted total is [N]; the tallies are those of the
    first [N] requests and events only (replies and later messages count
    for nothing); the lines printed are the groups with their tallies, each
    once; the printed tallies sum to [N]; and the lines are in
    non-increasing tally order. *)
Theorem C8_count_summary `{Imports} (N : Z) (group_by : string) (loopback : bool)
    (depth : Z) (tr : list action) :
  group_by ∈ ["path"; "type"; "client"] →
  0 ≤ N ≤ Z.of_nat (length (qualifying (callbacks tr))) →
  ∃ self,
    CountPrinter.exec (tr ++ [Printer]) (CountPrinter.init N group_by loopback depth)
      = Some self
    ∧ CountPrinter.thread self = CountPrinter.Returned
    ∧ CountPrinter.seen self = N
    ∧ CountPrinter.requests self
      = tally (keys_of group_by depth (take (Z.to_nat N) (qualifying (callbacks tr))))
    ∧ CountPrinter.stdout self ≡ₚ map_to_list (CountPrinter.requests self)
    ∧ Zsum (CountPrinter.stdout self).*2 = N
    ∧ Sorted tally_ge (CountPrinter.stdout self).
Proof.
  intros Hg [HN Hlen].
  destruct (count_inv_exec N group_by depth tr []
              (CountPrinter.init N group_by loopback depth) HN Hg
              (count_inv_init N group_by loopback depth HN))
    as (s & Hexec & Hinv).
  simpl in Hinv. destruct Hinv as (Hc & Hg' & Hd & Hseen & Hreq & Hth).
  exists (CountPrinter.run_step s). split.
  { rewrite count_exec_app, Hexec. done. }
  (* the last step: the test of the loop fails, or the thread is done *)
  assert (CountPrinter.thread (CountPrinter.run_step s) = CountPrinter.Returned
          ∧ CountPrinter.seen (CountPrinter.run_step s) = CountPrinter.seen s
          ∧ CountPrinter.requests (CountPrinter.run_step s) = CountPrinter.requests s
          ∧ CountPrinter.stdout (CountPrinter.run_step s) = CountPrinter.results s)
    as (Hpc & Hseen' & Hreq' & Hout).
  { unfold CountPrinter.run_step. destruct (CountPrinter.thread s) eqn:Hs.
    - rewrite decide_False by lia. simpl. by rewrite Hth.
    - rewrite Hs. by destruct Hth as [_ ->]. }
  rewrite Hseen', Hreq', Hout.
  assert (CountPrinter.results s ≡ₚ map_to_list (CountPrinter.requests s)) as Hperm.
  { apply sorted_reverse_perm. }
  split_and!; try done.
  - lia.
  - rewrite (Zsum_perm _ (map_to_list (CountPrinter.requests s)).*2)
      by by apply fmap_Permutation.
    rewrite Hreq, Zsum_tally. unfold keys_of.
    assert (∀ ms, length (omap (λ m, key_of m group_by depth) ms) = length ms) as ->.
    { induction ms as [|m ms IH]; [done |]. simpl.
      destruct (key_of_valid m group_by depth Hg) as [k ->]. simpl. f_equal. exact IH. }
    rewrite length_take. lia.
  - apply (sorted_reverse_Sorted snd).
Qed.

(** ** The summary of the Latency printer *)

Lemma data_singleton (self : LatencyPrinter.t) (k : string) (latencies : list Q)
    (r : LatencyPrinter.result) :
  LatencyPrinter._latencies_by_group self = {[k := latencies]} →
  LatencyPrinter._sort_by self ∈ ["avg"; "p95"; "p99"] →
  LatencyPrinter.result_of latencies = Some r →
  LatencyPrinter.data self
  = Some [(k, LatencyPrinter.avg r, LatencyPrinter.p95 r, LatencyPrinter.p99 r)].
Proof.
  intros Hlat Hsort Hr. unfold LatencyPrinter.data.
  rewrite Hlat, map_to_list_singleton. simpl. rewrite Hr. simpl.
  unfold LatencyPrinter.getitem_result.
  repeat (apply elem_of_cons in Hsort as [->|Hsort]; [done |]).
  by apply elem_of_nil in Hsort.
Qed.

(** The rank chosen by [percentile] for a fraction in [[0, 1]] needs no
    clamping from above. *)
Lemma Qceiling_fraction (p : Q) (n : Z) :
  (0 <= p)%Q → (p <= 1)%Q → 0 ≤ n → 0 ≤ Qceiling (p * inject_Z n) ≤ n.
Proof.
  intros Hp0 Hp1 Hn. split.
  - change 0 with (Qceiling 0). apply Qceiling_resp_le.
    apply Qmult_le_0_compat; [done |]. change 0%Q with (inject_Z 0).
    by rewrite <- Zle_Qle.
  - rewrite <- (Qceiling_Z n) at 2. apply Qceiling_resp_le.
    rewrite <- (Qmult_1_l (inject_Z n)) at 2.
    apply Qmult_le_compat_r; [done |]. change 0%Q with (inject_Z 0).
    by rewrite <- Zle_Qle.
Qed.

(** C9. A Latency printer holds one group with the samples 1 to 10 and has
    not reported yet.  Then [report] returns normally and writes one table
    whose only row gives, for that group, avg = 5.5 (the sum of the samples
    divided by their number), p95 = 10 and p99 = 10.  The percentile used is
    the nearest-rank one: for a non-empty ascending sequence of [n] samples
    and a fraction [p] in [[0, 1]] it is the sample at rank [ceil(p * n)],
    counted from 1 and raised to 1 when that is 0; the rank is within
    [[1, n]] and no interpolation takes place. *)
Theorem C9_latency_summary (self : LatencyPrinter.t) (k : string) :
  LatencyPrinter._latencies_by_group self = {[k := one_to_ten]} →
  LatencyPrinter._sort_by self ∈ ["avg"; "p95"; "p99"] →
  LatencyPrinter._report_done self = false →
  (LatencyPrinter.report self).1 = LatencyPrinter.Return
  ∧ LatencyPrinter.stdout (LatencyPrinter.report self).2
    = LatencyPrinter.stdout self
      ++ [LatencyPrinter.ClearLine;
          LatencyPrinter.Table [LatencyPrinter._group_by self; "avg"; "p95"; "p99"]
                               [(k, 5.5, 10, 10)%Q]]
  ∧ (LatencyPrinter.sum one_to_ten / inject_Z (Z.of_nat (length one_to_ten)) == 5.5)%Q
  ∧ percentile one_to_ten 0.95 = Some 10%Q
  ∧ percentile one_to_ten 0.99 = Some 10%Q
  ∧ ∀ (N : list Q) (p : Q), N ≠ [] → (0 <= p)%Q → (p <= 1)%Q →
      let n := Z.of_nat (length N) in
      let rank := Z.max 1 (Qceiling (p * inject_Z n)) in
      1 ≤ rank ≤ n
      ∧ ∃ v, percentile N p = Some v ∧ N !! Z.to_nat (rank - 1) = Some v.
Proof.
  intros Hlat Hsort Hdone. split_and!.
  - unfold LatencyPrinter.report. rewrite Hdone.
    unfold LatencyPrinter.report_emit.
    erewrite data_singleton; [done | by case_decide | by case_decide | done].
  - unfold LatencyPrinter.report. rewrite Hdone.
    unfold LatencyPrinter.report_emit.
    erewrite data_singleton; [| by case_decide | by case_decide | done].
    simpl. rewrite <- app_assoc. by case_decide.
  - done.
  - done.
  - done.
  - intros N p HN Hp0 Hp1 n rank.
    assert (0 < n) as Hn by (subst n; destruct N; [done | simpl; lia]).
    destruct (Qceiling_fraction p n Hp0 Hp1) as [Hlo Hhi]; [lia |].
    split; [subst rank; lia |].
    unfold percentile. fold n. rewrite Z.min_r by done. fold rank.
    destruct (N !! Z.to_nat (rank - 1)) as [v|] eqn:Hv; [by exists v |].
    apply lookup_ge_None in Hv. subst rank. lia.
Qed.

(** ** The loopback flag *)

(** Whichever printer [main] starts carries the flag computed at line 425. *)
Lemma main_loopback (opts : options) (p : printer) :
  main opts = inr p →
  printer_loopback p = bool_decide (iface opts ∈ ["lo"; "lo0"]).
Proof.
  unfold main, exit_or, validate_group_by, validate_aggregation_depth,
    validate_sort_by.
  repeat case_match; try done; by intros [= <-].
Qed.

(** C10. For every printer that [main] starts, loopback dedupe is on if and
    only if the interface name is exactly "lo" or "lo0".  For any other
    name the flag is off, and when the printer is the Paired one it stays
    off in every run: whenever the reply at the head of its queue matches
    a buffered list, the printer writes every request of the list, then the
    reply. *)
Theorem C10_loopback_iff_lo `{Imports} (opts : options) (p : printer) :
  main opts = inr p →
  (printer_loopback p = true ↔ iface opts = "lo" ∨ iface opts = "lo0")
  ∧ (iface opts ≠ "lo" → iface opts ≠ "lo0" →
     printer_loopback p = false
     ∧ ∀ d tr rep replies first rest,
         p = ADefaultPrinter d →
         let self := DefaultPrinter.exec tr d in
         DefaultPrinter._replies self = rep :: replies →
         pending (client rep) (xid rep) (DefaultPrinter._requests_by_client self)
           = first :: rest →
         DefaultPrinter.stdout (DefaultPrinter.run_iter self)
         = DefaultPrinter.stdout self ++ [first :: rest ++ [rep]]).
Proof.
  intros Hmain. rewrite (main_loopback _ _ Hmain).
  assert (iface opts ∈ ["lo"; "lo0"] ↔ iface opts = "lo" ∨ iface opts = "lo0") as Hin.
  { rewrite !elem_of_cons, elem_of_nil. tauto. }
  split.
  - by rewrite bool_decide_eq_true.
  - intros Hlo Hlo0.
    assert (bool_decide (iface opts ∈ ["lo"; "lo0"]) = false) as Hoff.
    { apply bool_decide_eq_false. tauto. }
    split; [done |].
    intros d tr rep replies first rest -> self Hq Hp.
    destruct (matched_reply self rep replies first rest Hq Hp) as [-> _].
    subst self. rewrite loopback_exec.
    apply main_loopback in Hmain. simpl in Hmain. by rewrite Hmain, Hoff.
Qed.

(** ** Reporting once *)

(** [report] only reads these fields for its table. *)
Lemma data_write o self :
  LatencyPrinter.data (LatencyPrinter.write o self) = LatencyPrinter.data self.
Proof. done. Qed.

(** Called and left to run to its end, [report] marks the report done,
    whether it returns or raises. *)
Lemma report_done_after (self : LatencyPrinter.t) :
  LatencyPrinter._report_done (LatencyPrinter.report self).2 = true.
Proof.
  unfold LatencyPrinter.report.
  destruct (LatencyPrinter._report_done self) eqn:Hd; [done |].
  unfold LatencyPrinter.report_emit. by destruct (LatencyPrinter.data _).
Qed.

(** [report] called again after a first call has ended (returned or
    raised) returns at once: nothing is written and no field changes. *)
Lemma report_twice (self : LatencyPrinter.t) :
  LatencyPrinter.report (LatencyPrinter.report self).2
  = (LatencyPrinter.Return, (LatencyPrinter.report self).2).
Proof.
  unfold LatencyPrinter.report at 1. by rewrite report_done_after.
Qed.

(** [cancel] on a Latency printer that has not reported yet, and whose
    table can be computed, returns after writing exactly one table. *)
Lemma report_once (self : LatencyPrinter.t) :
  LatencyPrinter._report_done self = false →
  is_Some (LatencyPrinter.data self) →
  (LatencyPrinter.cancel self).1 = LatencyPrinter.Return
  ∧ LatencyPrinter.tables (LatencyPrinter.stdout (LatencyPrinter.cancel self).2)
    = S (LatencyPrinter.tables (LatencyPrinter.stdout self)).
Proof.
  intros Hd [d Hdata]. unfold LatencyPrinter.cancel, LatencyPrinter.report.
  rewrite Hd.
  set (s := LatencyPrinter.set_report_done true _).
  assert (LatencyPrinter.data s = Some d) as Hs.
  { subst s. by case_decide. }
  assert (LatencyPrinter.stdout s = LatencyPrinter.stdout self) as Hout.
  { subst s. by case_decide. }
  unfold LatencyPrinter.report_emit. rewrite data_write, Hs. simpl.
  split; [done |]. change (LatencyPrinter.stdout (if decide _ then _ else _))
    with (LatencyPrinter.stdout s).
  rewrite Hout. unfold LatencyPrinter.tables.
  rewrite <- app_assoc, List.filter_app, length_app. simpl. lia.
Qed.

(** The main thread's [cancel], run block by block without another
    thread in between, is [report]. *)
Lemma main_steps_report (T : LatencyPrinter.threads) :
  LatencyPrinter.main T = LatencyPrinter.Before →
  LatencyPrinter.self
    (LatencyPrinter.main_step (LatencyPrinter.main_step (LatencyPrinter.main_step
      (LatencyPrinter.main_step (LatencyPrinter.main_step T)))))
  = (LatencyPrinter.cancel (LatencyPrinter.self T)).2.
Proof.
  intros Hm. unfold LatencyPrinter.cancel, LatencyPrinter.report.
  unfold LatencyPrinter.main_step at 5. rewrite Hm.
  unfold LatencyPrinter.main_step at 4. simpl.
  destruct (LatencyPrinter._report_done (LatencyPrinter.self T)); [done |].
  unfold LatencyPrinter.main_step at 3. simpl.
  unfold LatencyPrinter.main_step at 2. simpl.
  unfold LatencyPrinter.main_step. simpl.
  by destruct (LatencyPrinter.report_emit _) as [[] s].
Qed.

(** With no sample collected the table is empty. *)
Lemma report_emit_empty (self : LatencyPrinter.t) :
  LatencyPrinter._latencies_by_group self = ∅ →
  LatencyPrinter.report_emit self
  = (LatencyPrinter.Return,
     LatencyPrinter.write (LatencyPrinter.Table (LatencyPrinter.headers self) [])
       (LatencyPrinter.write LatencyPrinter.ClearLine self)).
Proof.
  intros Hlat. unfold LatencyPrinter.report_emit, LatencyPrinter.data.
  cbn [LatencyPrinter.write LatencyPrinter._latencies_by_group].
  by rewrite Hlat, map_to_list_empty.
Qed.

Lemma latency_exec_cons `{Imports} a tr T :
  LatencyPrinter.exec (a :: tr) T = LatencyPrinter.exec tr (LatencyPrinter.step a T).
Proof. done. Qed.

(** Once the target is reached the loop of [wait_for_requests] ends. *)
Lemma wait_iter_done `{Imports} (self : LatencyPrinter.t) :
  LatencyPrinter._count self ≤ LatencyPrinter._seen self →
  LatencyPrinter.wait_iter self = (LatencyPrinter.Return, self).
Proof. intros Hge. unfold LatencyPrinter.wait_iter. by rewrite decide_False by lia. Qed.

(** C3. The guard of [report] does not make the summary run once under
    every interleaving.  For any Latency printer with a positive target, let
    [KeyboardInterrupt] send the main thread into [cancel]; it passes the
    test of line 307 and forces [_seen] up at line 310.  The printer thread
    now leaves [wait_for_requests], enters [report] and passes the same
    test, since [_report_done] is set only at line 311.  Both threads go on
    to write the summary: the table is written twice. *)
Theorem C3_report_race `{Imports} (count : Z) (group_by : string) (loopback : bool)
    (depth : Z) (sort_by : string) :
  0 < count →
  let T := LatencyPrinter.exec
             [Main; Main; Main;
              Printer; Printer; Printer; Printer; Printer;
              Main; Main]
             (LatencyPrinter.start
                (LatencyPrinter.init count group_by loopback depth sort_by)) in
  LatencyPrinter.printer T = LatencyPrinter.After
  ∧ LatencyPrinter.main T = LatencyPrinter.After
  ∧ LatencyPrinter.tables (LatencyPrinter.stdout (LatencyPrinter.self T)) = 2%nat.
Proof.
  intros Hcount T. subst T.
  (* run the ten actions one at a time on a state given by its fields *)
  do 10 (rewrite latency_exec_cons;
         cbn -[LatencyPrinter.exec LatencyPrinter.report_emit
               LatencyPrinter.wait_iter decide Z.lt];
         rewrite ?wait_iter_done by (simpl; lia);
         rewrite ?decide_True, ?decide_False by (simpl; lia);
         rewrite ?report_emit_empty by done;
         cbn -[LatencyPrinter.exec LatencyPrinter.report_emit
               LatencyPrinter.wait_iter decide Z.lt]).
  done.
Qed.

(** C4. The Count printer does not print its summary when the run is
    interrupted: it inherits [BasePrinter.cancel], which does nothing.  For
    a Count printer built for [N] samples with a valid grouping mode, after
    any schedule that delivers fewer than [N] requests and events and
    ends with the main thread's [cancel], nothing has been written and the
    printer thread is still polling.  (The Latency printer overrides
    [cancel] and does report.) *)
Theorem C4_count_cancel_silent `{Imports} (N : Z) (group_by : string)
    (loopback : bool) (depth : Z) (tr : list action) :
  group_by ∈ ["path"; "type"; "client"] →
  Z.of_nat (length (qualifying (callbacks tr))) < N →
  ∃ self,
    CountPrinter.exec (tr ++ [Main]) (CountPrinter.init N group_by loopback depth)
      = Some self
    ∧ CountPrinter.stdout self = []
    ∧ CountPrinter.thread self = CountPrinter.Polling.
Proof.
  intros Hg Hlt.
  assert (0 ≤ N) as HN by lia.
  destruct (count_inv_exec N group_by depth (tr ++ [Main]) []
              (CountPrinter.init N group_by loopback depth) HN Hg
              (count_inv_init N group_by loopback depth HN))
    as (self & Hexec & Hinv).
  exists self. split; [done |].
  assert (qualifying (callbacks (tr ++ [Main])) = qualifying (callbacks tr)) as E.
  { unfold callbacks. rewrite omap_app. simpl. by rewrite app_nil_r. }
  simpl in Hinv. rewrite E in Hinv.
  destruct Hinv as (_ & _ & _ & _ & _ & Hth).
  destruct (CountPrinter.thread self); [done |]. lia.
Qed.

(** * Examples *)

(** Two requests, their replies in the other order, the printer thread
    running in between. *)
Lemma C1_paired_groups_example :
  DefaultPrinter.stdout
    (@DefaultPrinter.exec example_imports
       ([Sniffer (OnRequest (get "a" 1 1)); Printer;
         Sniffer (OnRequest (get "b" 1 2));
         Sniffer (OnReply (got "b" 1 3)); Printer;
         Sniffer (OnReply (got "a" 1 4))] ++ replicate 2 Printer)
       (DefaultPrinter.init false false))
  = [[get "b" 1 2; got "b" 1 3]; [get "a" 1 1; got "a" 1 4]].
Proof.
  apply (@C1_paired_groups example_imports false
           [(get "b" 1 2, got "b" 1 3); (get "a" 1 1, got "a" 1 4)]
           [get "a" 1 1; get "b" 1 2]).
  - apply perm_swap.
  - simpl. apply NoDup_cons. split.
    + intros Hin. apply list_elem_of_singleton in Hin. discriminate Hin.
    + apply NoDup_singleton.
  - repeat constructor; simpl; discriminate.
  - reflexivity.
  - simpl. lia.
Defined.

Lemma C2_loopback_dedupe_example :
  DefaultPrinter.stdout (DefaultPrinter.run_iter (paired_with_duplicate true))
  = [[get "10.0.0.1:4000" 7 1; got "10.0.0.1:4000" 7 2]]
  ∧ DefaultPrinter.stdout (DefaultPrinter.run_iter (paired_with_duplicate false))
    = [[get "10.0.0.1:4000" 7 1; get "10.0.0.1:4000" 7 1; got "10.0.0.1:4000" 7 2]].
Proof.
  split.
  - exact (proj1 (C2_loopback_dedupe (paired_with_duplicate true)
                    (got "10.0.0.1:4000" 7 2) [] (get "10.0.0.1:4000" 7 1)
                    [get "10.0.0.1:4000" 7 1] eq_refl eq_refl)).
  - exact (proj1 (C2_loopback_dedupe (paired_with_duplicate false)
                    (got "10.0.0.1:4000" 7 2) [] (get "10.0.0.1:4000" 7 1)
                    [get "10.0.0.1:4000" 7 1] eq_refl eq_refl)).
Defined.

Lemma C3_report_race_example :
  LatencyPrinter.tables
    (LatencyPrinter.stdout
       (LatencyPrinter.self
          (@LatencyPrinter.exec example_imports
             [Main; Main; Main; Printer; Printer; Printer; Printer; Printer; Main; Main]
             (LatencyPrinter.start (LatencyPrinter.init 3 "path" false 0 "avg")))))
  = 2%nat.
Proof.
  apply (@C3_report_race example_imports 3 "path" false 0 "avg"). lia.
Defined.

(** One request of the two asked for, then [KeyboardInterrupt]. *)
Lemma C4_count_cancel_silent_example :
  ∃ self,
    @CountPrinter.exec example_imports
      ([Sniffer (OnRequest (get "a" 1 1)); Printer] ++ [Main])
      (CountPrinter.init 2 "path" false 0) = Some self
    ∧ CountPrinter.stdout self = []
    ∧ CountPrinter.thread self = CountPrinter.Polling.
Proof.
  apply (@C4_count_cancel_silent example_imports 2 "path" false 0
           [Sniffer (OnRequest (get "a" 1 1)); Printer]).
  - apply list_elem_of_here.
  - simpl. lia.
Defined.

Lemma C6_unmatched_reply_dropped_example :
  DefaultPrinter.stdout (DefaultPrinter.run_iter paired_with_stray) = []
  ∧ (@LatencyPrinter.wait_iter example_imports latency_with_stray).1
    = LatencyPrinter.Next.
Proof.
  destruct (@C6_unmatched_reply_dropped example_imports
              (got "10.0.0.1:4000" 8 2) []) as [HP HL].
  split.
  - exact (proj1 (HP paired_with_stray eq_refl eq_refl)).
  - specialize (HL latency_with_stray).
    destruct (@LatencyPrinter.wait_iter example_imports latency_with_stray) as [how s].
    apply HL; [vm_compute | |]; reflexivity.
Defined.

(** Three requests and events for a target of two; a reply in between. *)
Lemma C8_count_summary_example :
  ∃ self,
    @CountPrinter.exec example_imports
      ([Sniffer (OnRequest (get "a" 1 1)); Printer;
        Sniffer (OnReply (got "a" 1 2));
        Sniffer (OnEvent (fired "b" 3));
        Sniffer (OnRequest (get "a" 2 4))] ++ [Printer])
      (CountPrinter.init 2 "client" false 0) = Some self
    ∧ Zsum (CountPrinter.stdout self).*2 = 2
    ∧ Sorted tally_ge (CountPrinter.stdout self).
Proof.
  destruct (@C8_count_summary example_imports 2 "client" false 0
              [Sniffer (OnRequest (get "a" 1 1)); Printer;
               Sniffer (OnReply (got "a" 1 2));
               Sniffer (OnEvent (fired "b" 3));
               Sniffer (OnRequest (get "a" 2 4))])
    as (self & Hexec & _ & _ & _ & _ & Hsum & Hsorted).
  - apply list_elem_of_further, list_elem_of_further, list_elem_of_here.
  - simpl. lia.
  - by exists self.
Defined.

Lemma C9_latency_summary_example :
  LatencyPrinter.stdout (LatencyPrinter.report latency_one_to_ten).2
  = [LatencyPrinter.ClearLine;
     LatencyPrinter.Table ["path"; "avg"; "p95"; "p99"] [("/zk/a", 5.5, 10, 10)%Q]].
Proof.
  apply (C9_latency_summary latency_one_to_ten "/zk/a").
  - reflexivity.
  - apply list_elem_of_further, list_elem_of_here.
  - reflexivity.
Defined.

(** The interface "lo1" is not the loopback for [main]. *)
Lemma C10_loopback_iff_lo_example :
  main lo1_options = inr (ADefaultPrinter (DefaultPrinter.init false false))
  ∧ printer_loopback (ADefaultPrinter (DefaultPrinter.init false false)) = false.
Proof.
  split; [reflexivity |].
  apply (@C10_loopback_iff_lo example_imports lo1_options
           (ADefaultPrinter (DefaultPrinter.init false false)) eq_refl);
    simpl; discriminate.
Defined.

Lemma report_once_example :
  LatencyPrinter.tables
    (LatencyPrinter.stdout (LatencyPrinter.cancel latency_with_stray).2) = 1%nat.
Proof.
  apply (report_once latency_with_stray).
  - reflexivity.
  - eexists. reflexivity.
Defined.

(** * Further properties *)

(** ** The Unpaired printer *)

Lemma unpaired_outlook_run_iter more (self : UnpairedPrinter.t) :
  unpaired_outlook more (UnpairedPrinter.run_iter self) = unpaired_outlook more self.
Proof.
  unfold unpaired_outlook, UnpairedPrinter.run_iter.
  destruct (UnpairedPrinter._messages self) as [|m messages] eqn:Hq; [by rewrite Hq |].
  simpl. by rewrite <- app_assoc.
Qed.

Lemma unpaired_outlook_enqueue m more (self : UnpairedPrinter.t) :
  unpaired_outlook more (UnpairedPrinter.enqueue m self)
  = unpaired_outlook (m :: more) self.
Proof. unfold unpaired_outlook. simpl. by rewrite <- app_assoc. Qed.

Lemma unpaired_length_run_iter (self : UnpairedPrinter.t) :
  length (UnpairedPrinter._messages (UnpairedPrinter.run_iter self))
  = pred (length (UnpairedPrinter._messages self)).
Proof.
  unfold UnpairedPrinter.run_iter.
  by destruct (UnpairedPrinter._messages self) as [|m messages] eqn:Hq; [rewrite Hq |].
Qed.

Lemma unpaired_exec_cons a tr (self : UnpairedPrinter.t) :
  UnpairedPrinter.exec (a :: tr) self
  = UnpairedPrinter.exec tr (UnpairedPrinter.step a self).
Proof. done. Qed.

Lemma unpaired_drains n (self : UnpairedPrinter.t) :
  (length (UnpairedPrinter._messages self) ≤ n)%nat →
  UnpairedPrinter.stdout (UnpairedPrinter.exec (replicate n Printer) self)
  = unpaired_outlook [] self.
Proof.
  revert self. induction n as [|n IH]; intros self Hn.
  - simpl. unfold unpaired_outlook.
    destruct (UnpairedPrinter._messages self); [|simpl in Hn; lia].
    by rewrite app_nil_r.
  - simpl replicate. rewrite unpaired_exec_cons. simpl. rewrite IH.
    + apply unpaired_outlook_run_iter.
    + rewrite unpaired_length_run_iter. lia.
Qed.

Lemma unpaired_exec_outlook tr n (self : UnpairedPrinter.t) :
  (length (UnpairedPrinter._messages self) + length (callbacks tr) ≤ n)%nat →
  UnpairedPrinter.stdout (UnpairedPrinter.exec (tr ++ replicate n Printer) self)
  = unpaired_outlook (message_of <$> callbacks tr) self.
Proof.
  revert self. induction tr as [|a tr IH]; intros self Hn.
  - simpl in *. apply unpaired_drains. lia.
  - simpl app. rewrite unpaired_exec_cons.
    destruct a as [c| |]; simpl in Hn |- *.
    + rewrite IH.
      * destruct c; apply unpaired_outlook_enqueue.
      * assert (length (UnpairedPrinter._messages
                          (UnpairedPrinter.step (Sniffer c) self))
                = S (length (UnpairedPrinter._messages self))) as E.
        { destruct c; simpl; rewrite length_app; simpl; lia. }
        simpl in E. rewrite E. lia.
    + rewrite IH; [apply unpaired_outlook_run_iter |].
      rewrite unpaired_length_run_iter. lia.
    + by apply IH.
Qed.

(** The Unpaired printer is a queue: whatever the interleaving of the
    handler calls with the printer thread, once the thread has had as many
    further iterations as messages were handed in, it has written every
    message the sniffer delivered (request, reply or event), each once and
    alone, in the order of arrival. *)
Theorem unpaired_passthrough (colors loopback : bool) (tr : list action) (n : nat) :
  (length (callbacks tr) ≤ n)%nat →
  UnpairedPrinter.stdout
    (UnpairedPrinter.exec (tr ++ replicate n Printer)
       (UnpairedPrinter.init colors loopback))
  = (λ c, [message_of c]) <$> callbacks tr.
Proof.
  intros Hn. rewrite unpaired_exec_outlook by (simpl; lia).
  unfold unpaired_outlook. simpl. by rewrite <- list_fmap_compose.
Qed.

Lemma unpaired_passthrough_example :
  UnpairedPrinter.stdout
    (UnpairedPrinter.exec
       ([Sniffer (OnRequest (get "a" 1 1)); Printer; Printer;
         Sniffer (OnEvent (fired "b" 2));
         Sniffer (OnReply (got "a" 1 3))] ++ replicate 3 Printer)
       (UnpairedPrinter.init true false))
  = [[get "a" 1 1]; [fired "b" 2]; [got "a" 1 3]].
Proof.
  apply (unpaired_passthrough true false
           [Sniffer (OnRequest (get "a" 1 1)); Printer; Printer;
            Sniffer (OnEvent (fired "b" 2));
            Sniffer (OnReply (got "a" 1 3))] 3).
  simpl. lia.
Defined.

(** ** What the Paired printer writes from its handlers *)


Lemma immediate_snoc `{Imports} cs c :
  immediate (cs ++ [c]) = immediate cs ++ immediate [c].
Proof. unfold immediate. by rewrite omap_app. Qed.



(** ** Grouping keys *)

Lemma key_of_None `{Imports} m g d :
  key_of m g d = None ↔ g ∉ ["path"; "type"; "client"].
Proof.
  split.
  - intros Hnone Hin. destruct (key_of_valid m g d Hin) as [k Hk]. congruence.
  - intros Hnot. unfold key_of.
    repeat case_decide; try done; exfalso; apply Hnot; subst g;
      repeat (first [apply list_elem_of_here | apply list_elem_of_further]).
Qed.

(** [key_of] raises [ValueError] exactly for the grouping modes that
    [validate_group_by] rejects: a mode that [main] lets through gives a
    key for every message and every depth, and a mode it refuses gives none
    for any. *)
Theorem key_of_raises_iff_rejected `{Imports} (g : string) :
  (validate_group_by g = inr () ↔ ∀ m d, is_Some (key_of m g d))
  ∧ (validate_group_by g = inl 1 ↔ ∀ m d, key_of m g d = None).
Proof.
  unfold validate_group_by. split; split.
  - case_decide; [| done]. intros _ m d. by apply key_of_valid.
  - intros Hsome. case_decide as Hg; [done |].
    destruct (Hsome (Msg "" 0 0 0 "" "") 0) as [k Hk].
    apply (key_of_None (Msg "" 0 0 0 "" "") g 0) in Hg. congruence.
  - case_decide; [done |]. intros _ m d. by apply key_of_None.
  - intros Hnone. case_decide as Hg; [| done].
    destruct (key_of_valid (Msg "" 0 0 0 "" "") g 0 Hg) as [k Hk].
    rewrite Hnone in Hk. done.
Qed.

(** [CountPrinter._add] raises exactly when the target is not reached yet
    and the grouping mode is unknown; once [seen] has reached [count] every
    message is ignored without its key being computed, and the printer is
    left as it was.  A message that is counted raises [seen] by one and
    adds one to the tally of its key only. *)
Theorem count_add_cases `{Imports} (m : msg) (self : CountPrinter.t) :
  (CountPrinter._add m self = None
   ↔ CountPrinter.seen self < CountPrinter.count self
     ∧ CountPrinter.group_by self ∉ ["path"; "type"; "client"])
  ∧ (CountPrinter.count self ≤ CountPrinter.seen self →
     CountPrinter._add m self = Some self)
  ∧ (∀ self', CountPrinter.seen self < CountPrinter.count self →
     CountPrinter._add m self = Some self' →
     ∃ k, key_of m (CountPrinter.group_by self) (CountPrinter.aggregation_depth self)
          = Some k
          ∧ CountPrinter.seen self' = CountPrinter.seen self + 1
          ∧ CountPrinter.requests self' !! k
            = Some (default 0 (CountPrinter.requests self !! k) + 1)
          ∧ (∀ k', k' ≠ k →
               CountPrinter.requests self' !! k' = CountPrinter.requests self !! k')
          ∧ CountPrinter.stdout self' = CountPrinter.stdout self).
Proof.
  unfold CountPrinter._add. split_and!.
  - case_decide as Hfull.
    + split; [done | lia].
    + destruct (key_of m _ _) as [k|] eqn:Hk; simpl.
      * split; [done |]. intros [_ Hbad].
        apply (key_of_None m _ (CountPrinter.aggregation_depth self)) in Hbad.
        rewrite Hbad in Hk. done.
      * split; [| done]. intros _. split; [lia |]. by eapply key_of_None.
  - intros Hfull. by rewrite decide_True.
  - intros self' Hlt. rewrite decide_False by lia.
    destruct (key_of m _ _) as [k|]; simpl; [| done].
    intros [= <-]. exists k. simpl. split_and!; try done.
    + by rewrite lookup_insert_eq.
    + intros k' Hk'. by rewrite lookup_insert_ne.
Qed.

(** ** What [main] starts *)

(** When [main] starts a printer, the options have passed every check that
    applies to it.  [--count-requests] takes precedence over
    [--measure-latency], which takes precedence over [--unpaired]; the two
    counts are never both positive.  A Count printer has a positive target,
    a known grouping mode and a depth that is not negative; a Latency
    printer has, besides, a known sort column; the trace printers get the
    colour flag.  In every case [--version] was not given and
    [--include-host] was not mixed with [--exclude-host]. *)
Theorem main_started (opts : options) (p : printer) :
  main opts = inr p →
  version opts = false
  ∧ (excluded_hosts opts = [] ∨ included_hosts opts = [])
  ∧ match p with
    | ACountPrinter c =>
        c = CountPrinter.init (count_requests opts) (group_by opts)
              (bool_decide (iface opts ∈ ["lo"; "lo0"])) (aggregation_depth opts)
        ∧ 0 < count_requests opts ∧ measure_latency opts ≤ 0
        ∧ group_by opts ∈ ["path"; "type"; "client"]
        ∧ 0 ≤ aggregation_depth opts
    | ALatencyPrinter l =>
        l = LatencyPrinter.init (measure_latency opts) (group_by opts)
              (bool_decide (iface opts ∈ ["lo"; "lo0"])) (aggregation_depth opts)
              (sort_by opts)
        ∧ count_requests opts ≤ 0 ∧ 0 < measure_latency opts
        ∧ group_by opts ∈ ["path"; "type"; "client"]
        ∧ 0 ≤ aggregation_depth opts
        ∧ sort_by opts ∈ ["avg"; "p95"; "p99"]
    | AnUnpairedPrinter u =>
        u = UnpairedPrinter.init (colors opts) (bool_decide (iface opts ∈ ["lo"; "lo0"]))
        ∧ count_requests opts ≤ 0 ∧ measure_latency opts ≤ 0
        ∧ unpaired opts = true
    | ADefaultPrinter d =>
        d = DefaultPrinter.init (colors opts) (bool_decide (iface opts ∈ ["lo"; "lo0"]))
        ∧ count_requests opts ≤ 0 ∧ measure_latency opts ≤ 0
        ∧ unpaired opts = false
    end.
Proof.
  unfold main, exit_or, validate_group_by, validate_aggregation_depth,
    validate_sort_by, truthy.
  destruct (version opts); [done |].
  destruct (excluded_hosts opts) as [|e es], (included_hosts opts) as [|i is'];
    simpl; try done.
  all: repeat case_bool_decide; simpl; try done.
  all: repeat case_decide; try done.
  all: destruct (unpaired opts) eqn:Hu; try done.
  all: intros [= <-]; split_and!; auto; try lia.
Qed.

Lemma main_started_example :
  main count_options
  = inr (ACountPrinter (CountPrinter.init 100 "type" false 2))
  ∧ 0 ≤ aggregation_depth count_options.
Proof.
  split; [reflexivity |].
  destruct (main_started count_options
              (ACountPrinter (CountPrinter.init 100 "type" false 2)) eq_refl)
    as (_ & _ & _ & _ & _ & _ & Hd).
  exact Hd.
Defined.

(** [main] leaves with status 0 exactly when [--version] is given, and
    otherwise with status 1 exactly when [--include-host] is mixed with
    [--exclude-host], both counts are positive, or an option of the chosen
    summary (grouping mode, depth, and for latencies the sort column) is
    not acceptable; there is no other exit status.  The grouping mode and
    the depth are not looked at unless a count is positive, nor the sort
    column unless latencies are measured. *)
Theorem main_exit_status (opts : options) :
  (main opts = inl 0 ↔ version opts = true)
  ∧ (main opts = inl 1 ↔
     version opts = false
     ∧ ((excluded_hosts opts ≠ [] ∧ included_hosts opts ≠ [])
        ∨ (0 < count_requests opts ∧ 0 < measure_latency opts)
        ∨ (0 < count_requests opts
           ∧ (group_by opts ∉ ["path"; "type"; "client"] ∨ aggregation_depth opts < 0))
        ∨ (0 < measure_latency opts
           ∧ (group_by opts ∉ ["path"; "type"; "client"] ∨ aggregation_depth opts < 0
              ∨ sort_by opts ∉ ["avg"; "p95"; "p99"]))))
  ∧ (∀ n, main opts = inl n → n = 0 ∨ n = 1).
Proof.
  split_and!.
  - unfold main, exit_or, validate_group_by, validate_aggregation_depth,
      validate_sort_by.
    unfold truthy.
    destruct (version opts); [done |]. split; [| done].
    destruct (excluded_hosts opts) as [|e es], (included_hosts opts) as [|i is'];
      simpl.
    all: repeat case_bool_decide; simpl.
    all: repeat case_decide.
    all: by destruct (unpaired opts).
  - unfold main, exit_or, validate_group_by, validate_aggregation_depth,
      validate_sort_by, truthy.
    destruct (version opts); [split; [done | by intros [? _]] |].
    destruct (excluded_hosts opts) as [|e es], (included_hosts opts) as [|i is'];
      simpl.
    all: repeat case_bool_decide; simpl.
    all: repeat case_decide.
    all: destruct (unpaired opts).
    all: split;
      [ intros Hm; split; [done |]; try done;
        first [ left; by split
              | right; left; split; lia
              | right; right; left; split; [lia | tauto]
              | right; right; right; split; [lia | tauto] ]
      | intros [_ Hor]; try done; exfalso;
        destruct Hor as [[He Hi]|[[? ?]|[[? [?|?]]|[? [?|[?|?]]]]]];
        first [done | lia | tauto] ].
  - intros n. unfold main, exit_or, validate_group_by, validate_aggregation_depth,
      validate_sort_by, truthy.
    destruct (version opts); [intros [= <-]; by left |].
    destruct (excluded_hosts opts) as [|e es], (included_hosts opts) as [|i is'];
      simpl.
    all: repeat case_bool_decide; simpl.
    all: repeat case_decide.
    all: destruct (unpaired opts).
    all: intros Hn; inversion Hn; auto.
Qed.

(** ** Runs of a Count printer started by [main] *)

Lemma main_count_init (opts : options) (c : CountPrinter.t) :
  main opts = inr (ACountPrinter c) →
  c = CountPrinter.init (count_requests opts) (group_by opts)
        (bool_decide (iface opts ∈ ["lo"; "lo0"])) (aggregation_depth opts)
  ∧ 0 < count_requests opts
  ∧ group_by opts ∈ ["path"; "type"; "client"].
Proof.
  unfold main, exit_or, validate_group_by, validate_aggregation_depth,
    validate_sort_by.
  destruct (version opts); [done |].
  destruct (truthy (excluded_hosts opts) && truthy (included_hosts opts)); [done |].
  repeat case_bool_decide; simpl; try done.
  all: repeat case_decide; try done.
  all: try by destruct (unpaired opts).
  all: intros [= <-]; split_and!; auto; lia.
Qed.

(** In a run of a Count printer that [main] started, no handler raises,
    whatever the sniffer delivers and however the threads interleave.  At
    every moment the accepted total is the number of requests and events
    delivered so far, capped at the target; the tallies sum to that total;
    nothing is written while the thread polls, and the thread has returned
    only if the target was reached, having written the summary of the
    tallies. *)
Theorem main_count_run `{Imports} (opts : options) (c : CountPrinter.t)
    (tr : list action) :
  main opts = inr (ACountPrinter c) →
  ∃ self,
    CountPrinter.exec tr c = Some self
    ∧ CountPrinter.seen self
      = Z.min (count_requests opts) (Z.of_nat (length (qualifying (callbacks tr))))
    ∧ Zsum (map_to_list (CountPrinter.requests self)).*2 = CountPrinter.seen self
    ∧ match CountPrinter.thread self with
      | CountPrinter.Polling => CountPrinter.stdout self = []
      | CountPrinter.Returned =>
          count_requests opts ≤ Z.of_nat (length (qualifying (callbacks tr)))
          ∧ CountPrinter.stdout self = CountPrinter.results self
      end.
Proof.
  intros (-> & HN & Hg)%main_count_init.
  assert (0 ≤ count_requests opts) as HN' by lia.
  destruct (count_inv_exec (count_requests opts) (group_by opts)
              (aggregation_depth opts) tr [] _ HN' Hg
              (count_inv_init _ _ (bool_decide (iface opts ∈ ["lo"; "lo0"])) _ HN'))
    as (self & Hexec & Hinv).
  simpl in Hinv. destruct Hinv as (_ & _ & _ & Hseen & Hreq & Hth).
  exists self. split_and!; try done.
  rewrite Hreq, Zsum_tally, Hseen. unfold keys_of.
  assert (∀ ms, length (omap (λ m, key_of m (group_by opts) (aggregation_depth opts)) ms)
                = length ms) as ->.
  { induction ms as [|m ms IH]; [done |]. simpl.
    destruct (key_of_valid m (group_by opts) (aggregation_depth opts) Hg) as [k ->].
    simpl. f_equal. exact IH. }
  rewrite length_take. lia.
Qed.

Lemma main_count_run_example :
  ∃ self,
    @CountPrinter.exec example_imports
      [Sniffer (OnRequest (get "a" 1 1)); Printer; Sniffer (OnReply (got "a" 1 2))]
      (CountPrinter.init 100 "type" false 2) = Some self
    ∧ CountPrinter.seen self = 1
    ∧ CountPrinter.stdout self = [].
Proof.
  destruct (@main_count_run example_imports count_options
              (CountPrinter.init 100 "type" false 2)
              [Sniffer (OnRequest (get "a" 1 1)); Printer;
               Sniffer (OnReply (got "a" 1 2))] eq_refl)
    as (self & Hexec & Hseen & _ & Hth).
  exists self. split_and!; [exact Hexec | exact Hseen |].
  destruct (CountPrinter.thread self); [exact Hth |].
  destruct Hth as [Hle _]. simpl in Hle. lia.
Defined.

(** ** Samples of the Latency printer *)







(** ** A matched reply in the loop of the Latency printer *)

(** While the target is not reached, an iteration of [wait_for_requests]
    whose reply matches a buffered list (duplicates included) measures
    against the first request of the list only and discards the rest.  With
    a known grouping mode it adds one sample, the reply's timestamp minus
    that request's, to the group of that request, raises [_seen] by one and
    writes one progress line.  With an unknown mode [key_of] raises: the
    iteration is left with the reply and the requests already consumed and
    nothing counted or written. *)
Theorem latency_matched_reply `{Imports} (self : LatencyPrinter.t) (rep : msg)
    (replies : list msg) (first : msg) (rest : list msg) :
  LatencyPrinter._seen self < LatencyPrinter._count self →
  LatencyPrinter._replies self = rep :: replies →
  pending (client rep) (xid rep) (LatencyPrinter._requests_by_client self)
    = first :: rest →
  let '(how, self') := LatencyPrinter.wait_iter self in
  LatencyPrinter._replies self' = replies
  ∧ pending (client rep) (xid rep) (LatencyPrinter._requests_by_client self') = []
  ∧ match key_of first (LatencyPrinter._group_by self)
            (LatencyPrinter._aggregation_depth self) with
    | Some k =>
        how = LatencyPrinter.Next
        ∧ LatencyPrinter._latencies_by_group self'
          = <[k := default [] (LatencyPrinter._latencies_by_group self !! k)
                   ++ [(timestamp rep - timestamp first)%Q]]>
              (LatencyPrinter._latencies_by_group self)
        ∧ LatencyPrinter._seen self' = LatencyPrinter._seen self + 1
        ∧ LatencyPrinter.stdout self'
          = LatencyPrinter.stdout self
            ++ [LatencyPrinter.Collecting (LatencyPrinter._seen self + 1)
                  (LatencyPrinter._count self)]
    | None =>
        how = LatencyPrinter.Raise
        ∧ LatencyPrinter._latencies_by_group self'
          = LatencyPrinter._latencies_by_group self
        ∧ LatencyPrinter._seen self' = LatencyPrinter._seen self
        ∧ LatencyPrinter.stdout self' = LatencyPrinter.stdout self
    end.
Proof.
  intros Hlt Hq Hp. unfold LatencyPrinter.wait_iter.
  rewrite decide_True by done. rewrite Hq. simpl.
  pose proof (pop_requests_fst rep (LatencyPrinter._requests_by_client self)) as Hfst.
  pose proof (pending_pop_eq rep (LatencyPrinter._requests_by_client self)) as Hgone.
  destruct (pop_requests rep _) as [reqs by_client]. simpl in Hfst, Hgone.
  rewrite Hp in Hfst. subst reqs. simpl.
  by destruct (key_of first _ _) as [k|].
Qed.

Lemma latency_matched_reply_example :
  LatencyPrinter._latencies_by_group
    (@LatencyPrinter.wait_iter example_imports (latency_with_duplicate "path")).2
  = <["/zk/a" := [1; 3 - 1]%Q]> {[ "/zk/a" := [1%Q] ]}
  ∧ (@LatencyPrinter.wait_iter example_imports (latency_with_duplicate "host")).1
    = LatencyPrinter.Raise.
Proof.
  split.
  - pose proof (@latency_matched_reply example_imports (latency_with_duplicate "path")
                  (got "10.0.0.1:4000" 7 3) [] (get "10.0.0.1:4000" 7 1)
                  [get "10.0.0.1:4000" 7 (3 # 2)]) as Hm.
    destruct (@LatencyPrinter.wait_iter example_imports (latency_with_duplicate "path"))
      as [how self'].
    destruct Hm as (_ & _ & _ & Hlat & _); [vm_compute; reflexivity | reflexivity.. |].
    exact Hlat.
  - pose proof (@latency_matched_reply example_imports (latency_with_duplicate "host")
                  (got "10.0.0.1:4000" 7 3) [] (get "10.0.0.1:4000" 7 1)
                  [get "10.0.0.1:4000" 7 (3 # 2)]) as Hm.
    destruct (@LatencyPrinter.wait_iter example_imports (latency_with_duplicate "host"))
      as [how self'].
    destruct Hm as (_ & _ & Hhow & _); [vm_compute; reflexivity | reflexivity.. |].
    exact Hhow.
Defined.

(** ** How often the table is written *)

Lemma tables_snoc out o :
  LatencyPrinter.tables (out ++ [o])
  = (LatencyPrinter.tables out + if LatencyPrinter.is_table o then 1 else 0)%nat.
Proof.
  unfold LatencyPrinter.tables. rewrite List.filter_app, length_app. simpl.
  by destruct (LatencyPrinter.is_table o).
Qed.

Lemma tables_report_block l (self : LatencyPrinter.t) :
  (LatencyPrinter.tables (LatencyPrinter.stdout (LatencyPrinter.report_block l self).2)
   + may_report (LatencyPrinter.report_block l self).1
   ≤ LatencyPrinter.tables (LatencyPrinter.stdout self) + 1)%nat.
Proof.
  destruct l; simpl.
  - destruct (LatencyPrinter._report_done self); simpl; lia.
  - case_decide; simpl; lia.
  - lia.
  - unfold LatencyPrinter.report_emit.
    destruct (LatencyPrinter.data _); simpl; rewrite ?tables_snoc; simpl; lia.
Qed.

Lemma tables_wait_iter `{Imports} (self : LatencyPrinter.t) :
  LatencyPrinter.tables (LatencyPrinter.stdout (LatencyPrinter.wait_iter self).2)
  = LatencyPrinter.tables (LatencyPrinter.stdout self).
Proof.
  unfold LatencyPrinter.wait_iter. case_decide; [| done].
  destruct (LatencyPrinter._replies self) as [|rep replies]; [done |]. simpl.
  destruct (pop_requests rep _) as [[|req reqs] by_client]; simpl; [done |].
  destruct (key_of req _ _); simpl; [| done].
  rewrite tables_snoc. simpl. lia.
Qed.

Lemma tables_step `{Imports} a (T : LatencyPrinter.threads) :
  (LatencyPrinter.tables
     (LatencyPrinter.stdout (LatencyPrinter.self (LatencyPrinter.step a T)))
   + may_report (LatencyPrinter.printer (LatencyPrinter.step a T))
   + may_report (LatencyPrinter.main (LatencyPrinter.step a T))
   ≤ LatencyPrinter.tables (LatencyPrinter.stdout (LatencyPrinter.self T))
     + may_report (LatencyPrinter.printer T)
     + may_report (LatencyPrinter.main T))%nat.
Proof.
  destruct a as [[req|rep|evt]| |]; simpl; try done.
  - unfold LatencyPrinter.request_handler. by case_decide.
  - unfold LatencyPrinter.printer_step.
    destruct (LatencyPrinter.printer T) as [|l| |] eqn:Hp; rewrite ?Hp; try done.
    + pose proof (tables_wait_iter (LatencyPrinter.self T)) as E.
      destruct (LatencyPrinter.wait_iter _) as [[] s]; simpl in *; lia.
    + pose proof (tables_report_block l (LatencyPrinter.self T)) as E.
      destruct (LatencyPrinter.report_block l _) as [p s]; simpl in *. lia.
  - unfold LatencyPrinter.main_step.
    destruct (LatencyPrinter.main T) as [|l| |] eqn:Hm; rewrite ?Hm; try done.
    pose proof (tables_report_block l (LatencyPrinter.self T)) as E.
    destruct (LatencyPrinter.report_block l _) as [p s]; simpl in *. lia.
Qed.

(** In every run of a Latency printer, with both threads and the handlers
    interleaved in any way, the number of tables written plus the number of
    threads that have not yet left [report] is at most two.  So the table
    is never written more than twice, and while one of the two threads has
    not got through [report] (the main thread, say, because no interrupt
    came) it is written at most once. *)
Theorem latency_tables_bound `{Imports} (count : Z) (group_by : string)
    (loopback : bool) (depth : Z) (sort_by : string) (tr : list action) :
  let T := LatencyPrinter.exec tr
             (LatencyPrinter.start
                (LatencyPrinter.init count group_by loopback depth sort_by)) in
  (LatencyPrinter.tables (LatencyPrinter.stdout (LatencyPrinter.self T))
   + may_report (LatencyPrinter.printer T)
   + may_report (LatencyPrinter.main T) ≤ 2)%nat.
Proof.
  intros T. subst T.
  assert (∀ T,
    (LatencyPrinter.tables
       (LatencyPrinter.stdout (LatencyPrinter.self (LatencyPrinter.exec tr T)))
     + may_report (LatencyPrinter.printer (LatencyPrinter.exec tr T))
     + may_report (LatencyPrinter.main (LatencyPrinter.exec tr T))
     ≤ LatencyPrinter.tables (LatencyPrinter.stdout (LatencyPrinter.self T))
       + may_report (LatencyPrinter.printer T)
       + may_report (LatencyPrinter.main T))%nat) as Hgen.
  { induction tr as [|a tr IH]; intros T; [done |].
    simpl. etrans; [apply IH | apply tables_step]. }
  etrans; [apply Hgen |]. simpl. lia.
Qed.

(** ** The order of the rows of the table *)

Lemma Qltb_true x y : LatencyPrinter.Qltb x y = true → (x <= y)%Q.
Proof.
  unfold LatencyPrinter.Qltb. intros Hlt%negb_true_iff.
  apply Qlt_le_weak, Qnot_le_lt. intros Hle%Qle_bool_iff. congruence.
Qed.

Lemma Qltb_false x y : LatencyPrinter.Qltb x y = false → (y <= x)%Q.
Proof.
  unfold LatencyPrinter.Qltb. intros Hge%negb_false_iff. by apply Qle_bool_iff.
Qed.

Lemma insert_reverse_Sorted_Q {A} (key : A → Q) x l :
  Sorted (λ a b, (key b <= key a)%Q) l →
  Sorted (λ a b, (key b <= key a)%Q) (insert_reverse LatencyPrinter.Qltb key x l).
Proof.
  induction 1 as [|y l Hl IH Hhd]; simpl.
  - by repeat constructor.
  - destruct (LatencyPrinter.Qltb (key x) (key y)) eqn:Hxy.
    + constructor; [done |].
      destruct l as [|z l]; simpl in *.
      * constructor. by apply Qltb_true.
      * destruct (LatencyPrinter.Qltb (key x) (key z)).
        -- constructor. by inversion Hhd.
        -- constructor. by apply Qltb_true.
    + constructor; [by constructor |]. constructor. by apply Qltb_false.
Qed.

Lemma sorted_reverse_Sorted_Q {A} (key : A → Q) l :
  Sorted (λ a b, (key b <= key a)%Q) (sorted_reverse LatencyPrinter.Qltb key l).
Proof.
  induction l as [|x l IH]; simpl; [constructor |].
  by apply insert_reverse_Sorted_Q.
Qed.

(** A sorted list stays sorted under a map that carries the order over on
    the items of the list. *)
Lemma Sorted_fmap_Forall {A B} (P : A → Prop) (R1 : A → A → Prop)
    (R2 : B → B → Prop) (f : A → B) l :
  (∀ x y, P x → P y → R1 x y → R2 (f x) (f y)) →
  Forall P l → Sorted R1 l → Sorted R2 (f <$> l).
Proof.
  intros Hf HP Hs. induction Hs as [|x l Hl IH Hhd]; simpl; [constructor |].
  apply Forall_cons in HP as [Hx HP]. constructor; [by apply IH |].
  destruct Hhd as [|y l' Hxy]; simpl; constructor.
  apply Forall_cons in HP as [Hy _]. by apply Hf.
Qed.

(** The second [for] of [report]: each result is looked up at [sort_by]. *)
Lemma keyed_spec (sort_by : string) (results : list (string * LatencyPrinter.result))
    (keyed : list (Q * (string * LatencyPrinter.result))) :
  mapM (λ '(key, r), m ← LatencyPrinter.getitem_result r sort_by; Some (m, (key, r)))
       results = Some keyed →
  Forall (λ x, x.1 = column sort_by
                       (x.2.1, LatencyPrinter.avg x.2.2, LatencyPrinter.p95 x.2.2,
                        LatencyPrinter.p99 x.2.2)) keyed
  ∧ (λ x, x.2.1) <$> keyed = results.*1.
Proof.
  intros HF%mapM_Some_1. induction HF as [|[k r] x results keyed Hx _ [IH1 IH2]].
  - by split.
  - simpl. destruct (LatencyPrinter.getitem_result r sort_by) as [m|] eqn:Hm;
      simpl in Hx; [| done].
    injection Hx as <-. split.
    + constructor; [| done]. simpl.
      unfold LatencyPrinter.getitem_result in Hm. unfold column.
      repeat case_decide; congruence.
    + simpl. f_equal. exact IH2.
Qed.

Lemma results_spec (items : list (string * list Q))
    (results : list (string * LatencyPrinter.result)) :
  mapM (λ '(key, latencies), r ← LatencyPrinter.result_of latencies; Some (key, r))
       items = Some results →
  results.*1 = items.*1.
Proof.
  intros HF%mapM_Some_1. induction HF as [|[k l] x items results Hx _ IH]; [done |].
  simpl. destruct (LatencyPrinter.result_of l); simpl in Hx; [| done].
  injection Hx as <-. simpl. f_equal. exact IH.
Qed.

(** Whenever [report] can compute its table, the rows are in
    non-increasing order of the column that [sort_by] names, and there is
    exactly one row for each group that has samples. *)
Theorem latency_table_sorted (self : LatencyPrinter.t)
    (rows : list (string * Q * Q * Q)) :
  LatencyPrinter.data self = Some rows →
  Sorted (column_ge (LatencyPrinter._sort_by self)) rows
  ∧ (λ row, row.1.1.1) <$> rows
    ≡ₚ (map_to_list (LatencyPrinter._latencies_by_group self)).*1.
Proof.
  unfold LatencyPrinter.data.
  intros (results & Hres & (keyed & Hkeyed & [= <-])%bind_Some)%bind_Some.
  apply results_spec in Hres. apply keyed_spec in Hkeyed as [Hcol Hkeys].
  split.
  - apply (Sorted_fmap_Forall
             (λ x, x.1 = column (LatencyPrinter._sort_by self)
                           (x.2.1, LatencyPrinter.avg x.2.2, LatencyPrinter.p95 x.2.2,
                            LatencyPrinter.p99 x.2.2))
             (λ a b, (b.1 <= a.1)%Q)).
    + intros [m1 [k1 r1]] [m2 [k2 r2]] H1 H2 Hle. unfold column_ge.
      simpl in *. by rewrite <- H1, <- H2.
    + by rewrite sorted_reverse_perm.
    + apply (sorted_reverse_Sorted_Q fst).
  - rewrite <- Hres, <- Hkeys, <- list_fmap_compose.
    rewrite (sorted_reverse_perm LatencyPrinter.Qltb fst keyed).
    clear. induction keyed as [|[m [k r]] keyed IH]; simpl; [done |].
    by constructor.
Qed.

Lemma latency_table_sorted_example :
  ∃ rows,
    LatencyPrinter.data latency_two_groups = Some rows
    ∧ Sorted (column_ge "p95") rows
    ∧ length rows = 2%nat.
Proof.
  eexists. split; [vm_compute; reflexivity |].
  split; [| reflexivity].
  apply (latency_table_sorted latency_two_groups). vm_compute. reflexivity.
Defined.

(** ** After the target is reached *)




(** ** Adding and popping across clients *)

(** A request that is added is returned by the next pop of its client and
    xid, after whatever was already buffered there, and the key is then
    empty again.  A pop for another client or another xid does not see the
    request, also when the xid is the same and only the client differs,
    and leaves it buffered. *)
Theorem add_then_pop (req rep : msg) (T : requests_by_client) :
  (key rep = key req →
   (pop_requests rep (add_request req T)).1
     = pending (client req) (xid req) T ++ [req]
   ∧ pending (client req) (xid req) (pop_requests rep (add_request req T)).2 = [])
  ∧ (key rep ≠ key req →
     (pop_requests rep (add_request req T)).1 = pending (client rep) (xid rep) T
     ∧ pending (client req) (xid req) (pop_requests rep (add_request req T)).2
       = pending (client req) (xid req) T ++ [req]).
Proof.
  split.
  - intros [= Hc Hx]. rewrite pop_requests_fst, Hc, Hx. split.
    + apply pending_add_eq.
    + rewrite <- Hc, <- Hx. apply pending_pop_eq.
  - intros Hne. rewrite pop_requests_fst. split.
    + by apply pending_add_ne.
    + rewrite pending_pop_ne by (unfold key in *; congruence).
      apply pending_add_eq.
Qed.
